(** * flowmap.gl: the flow-lines layer and the example application's tooltip

    A shallow embedding of [FlowLinesLayer] (the instanced flow-line layer:
    geometry template, default props, update and draw) and of
    [getTooltipState] (the example application's tooltip selection), with the
    properties their specification states about them.

    JavaScript numbers are IEEE binary64 values, here Rocq's primitive
    [float]; a [Float32Array] rounds each element to binary32.  Objects that
    the code reads by field name ([d.color], [info.totals.incomingCount]) are
    finite maps from field names to values. *)

From Stdlib Require Import ZArith List Bool String.
From Stdlib Require Import PrimFloat FloatOps SpecFloat.
From stdpp Require Import gmap strings list pretty.

Set Default Proof Using "Type".
#[local] Set Warnings "-register-all".

(** ** JavaScript values, property reads, exceptions *)

Module JS.

Abbreviation number := float.

Inductive value : Type :=
| Undefined
| Null
| Bool (b : bool)
| Num (x : number)
| Str (s : string)
| Arr (l : list value)
| Obj (o : gmap string value).

Inductive error : Type :=
| TypeError (msg : string).

(** The outcome of evaluating an expression or a call: a value, or a thrown
    exception. *)
Inductive completion (A : Type) : Type :=
| Normal (a : A)
| Throw (e : error).
Arguments Normal {A} a.
Arguments Throw {A} e.

#[export] Instance completion_ret : MRet completion := fun A a => Normal a.
#[export] Instance completion_bind : MBind completion := fun A B f m =>
  match m with
  | Normal a => f a
  | Throw e => Throw e
  end.

(** [ToBoolean]: undefined, null, false, +0, -0, NaN and the empty string
    are falsy, every other value (every array and object too) is truthy. *)
Definition truthy (v : value) : bool :=
  match v with
  | Undefined | Null => false
  | Bool b => b
  | Num x => negb (PrimFloat.is_zero x || PrimFloat.is_nan x)
  | Str s => negb (String.eqb s "")
  | Arr _ | Obj _ => true
  end.

(** [a && b] and [a || b] with the right operand already evaluated: the
    right operands in this program are a call of a function without effects
    and a constant, so evaluating them early changes nothing. *)
Definition and_ (a : value) (b : value) : value := if truthy a then b else a.
Definition or_ (a : value) (b : value) : value := if truthy a then a else b.

(** [v.key] for an own data property: reading a property of undefined or
    null throws, a missing property reads as undefined.  Primitives and
    arrays have none of the names this program reads. *)
Definition get (v : value) (key : string) : completion value :=
  match v with
  | Undefined | Null =>
      Throw (TypeError ("Cannot read properties of undefined or null: " ++ key))
  | Obj o => Normal (default Undefined (o !! key))
  | Bool _ | Num _ | Str _ | Arr _ => Normal Undefined
  end.

(** [v === 's'] for a string literal [s]. *)
Definition strict_eq_str (v : value) (s : string) : bool :=
  match v with
  | Str s' => String.eqb s' s
  | _ => false
  end.

(** [Math.fround]: the binary32 value nearest to [x] (ties to even), as a
    number again.  Zeros, infinities and NaN are kept. *)
Definition fround (x : number) : number :=
  match Prim2SF x with
  | S754_finite s m e =>
      SF2Prim (binary_normalize 24 128 (cond_Zopp s (Zpos m)) e s)
  | _ => x
  end.

(** [new Float32Array(xs)] for an array of numbers. *)
Definition Float32Array (xs : list number) : list number := map fround xs.

End JS.

Import JS.

(** ** The rendering engine's objects, as far as the layer uses them *)

Module Luma.

Inductive uniform : Type :=
| UNumber (x : number)
| UVector (xs : list number).

Module Attribute.
Record t : Type := mk { size : nat; value : list number }.
End Attribute.

Module Geometry.
Record t : Type := mk {
  topology : string;
  positions : Attribute.t;
  normals : Attribute.t;
}.

(** Number of vertices: the positions array holds [size] floats each. *)
Definition vertexCount (g : t) : nat :=
  length (Attribute.value (positions g)) / Attribute.size (positions g).
End Geometry.

(** The device counts the resources created on it, which gives every model
    its identity, and remembers which ones were destroyed. *)
Module Device.
Record t : Type := mk { created : nat; destroyed : list nat }.
End Device.

Module Model.
Record t : Type := mk {
  handle : nat;
  id : string;
  vs : string;
  fs : string;
  modules : list string;
  geometry : Geometry.t;
  isInstanced : bool;
  uniforms : gmap string uniform;
  drawCalls : list (gmap string uniform);
}.

(** [model.setUniforms(u)]: the given uniforms override the stored ones on
    the model object; the call itself returns undefined. *)
Definition setUniforms (u : gmap string uniform) (m : t) : value * t :=
  (Undefined,
   mk (handle m) (id m) (vs m) (fs m) (modules m) (geometry m)
      (isInstanced m) (u ∪ uniforms m) (drawCalls m)).

(** [model.draw()]: a draw call is issued with the uniforms in effect. *)
Definition draw (m : t) : t :=
  mk (handle m) (id m) (vs m) (fs m) (modules m) (geometry m)
     (isInstanced m) (uniforms m) (uniforms m :: drawCalls m).
End Model.

Record ModelProps : Type := mkModelProps {
  mp_id : string;
  mp_vs : string;
  mp_fs : string;
  mp_modules : list string;
  mp_geometry : Geometry.t;
  mp_isInstanced : bool;
}.

(** [new Model(device, props)] *)
Definition newModel (device : Device.t) (p : ModelProps) : Model.t * Device.t :=
  (Model.mk (Device.created device) (mp_id p) (mp_vs p) (mp_fs p)
     (mp_modules p) (mp_geometry p) (mp_isInstanced p) ∅ [],
   Device.mk (S (Device.created device)) (Device.destroyed device)).

(** [model.destroy()] *)
Definition destroyModel (m : Model.t) (device : Device.t) : Device.t :=
  Device.mk (Device.created device) (Model.handle m :: Device.destroyed device).

End Luma.

(** ** FlowLinesLayer *)

Module FlowLinesLayer.
Import Luma.

Abbreviation RGBA := (list number).

(** An accessor maps a flow record to an attribute value. *)
Abbreviation accessor := (value -> completion value).
(** [getPickable] also receives the record's index. *)
Abbreviation indexed_accessor := (value -> nat -> completion value).

Definition DEFAULT_COLOR : RGBA := [0; 132; 193; 255]%float.
Definition INNER_SIDE_OUTLINE_THICKNESS : number := 1%float.

(** source_target_mix, perpendicular_offset_in_thickness_units,
    direction_of_travel_offset_in_thickness_units *)
Definition POSITIONS : list number :=
  [ 1; 0; 0;
    1; 2; -3;
    1; 1; -3;

    1; 0; 0;
    1; 1; -3;
    0; 1; 0;

    1; 0; 0;
    0; 1; 0;
    0; 0; 0 ]%float.

(** perpendicular_offset_in_pixels, direction_of_travel_offset_in_pixels,
    fill_outline_color_mix *)
Definition getOutlinePixelOffsets (tout tin : number) : list number :=
  [ -tin; 2 * tout; 1;
    2 * tout; -tout; 1;
    tout; -tout; 1;

    -tin; 2 * tout; 1;
    tout; -tout; 1;
    tout; -tout; 1;

    -tin; 2 * tout; 1;
    tout; -tout; 1;
    -tin; -tout; 1 ]%float.

Definition ZEROES : list number :=
  [ 0; 0; 0;
    0; 0; 0;
    0; 0; 0;
    0; 0; 0;
    0; 0; 0;
    0; 0; 0;
    0; 0; 0;
    0; 0; 0;
    0; 0; 0 ]%float.

Definition rgba_value (c : RGBA) : value := Arr (map Num c).

Record Parameters : Type := mkParameters { depthTest : bool }.

(** *** Props *)

(** The props a caller passes to the constructor: everything that has a
    default may be left out. *)
Module UserProps.
Record t : Type := mk {
  id : string;
  opacity : option number;
  pickable : option bool;
  data : list value;
  drawOutline : option bool;
  outlineColor : option RGBA;
  outlineThickness : option number;
  thicknessUnit : option number;
  getSourcePosition : option accessor;
  getTargetPosition : option accessor;
  getColor : option accessor;
  getThickness : option accessor;
  getPickable : option indexed_accessor;
  getEndpointOffsets : option accessor;
  parameters : option Parameters;
}.
End UserProps.

(** The props of a layer object, defaults filled in. *)
Module Props.
Record t : Type := mk {
  id : string;
  opacity : number;
  pickable : bool;
  data : list value;
  drawOutline : bool;
  outlineColor : RGBA;
  outlineThickness : number;
  thicknessUnit : number;
  getSourcePosition : accessor;
  getTargetPosition : accessor;
  getColor : accessor;
  getThickness : accessor;
  getPickable : indexed_accessor;
  getEndpointOffsets : option accessor;
  parameters : Parameters;
}.

Definition with_drawOutline (b : bool) (p : t) : t :=
  mk (id p) (opacity p) (pickable p) (data p) b (outlineColor p)
     (outlineThickness p) (thicknessUnit p) (getSourcePosition p)
     (getTargetPosition p) (getColor p) (getThickness p) (getPickable p)
     (getEndpointOffsets p) (parameters p).

Definition with_data (d : list value) (p : t) : t :=
  mk (id p) (opacity p) (pickable p) d (drawOutline p) (outlineColor p)
     (outlineThickness p) (thicknessUnit p) (getSourcePosition p)
     (getTargetPosition p) (getColor p) (getThickness p) (getPickable p)
     (getEndpointOffsets p) (parameters p).
End Props.

Module PropType.
Record t (A : Type) : Type := mk { type : string; value : A }.
Arguments mk {A} type value.
Arguments type {A} _.
Arguments value {A} _.
End PropType.

Module DefaultProps.
Record t : Type := mk {
  getSourcePosition : PropType.t accessor;
  getTargetPosition : PropType.t accessor;
  getColor : PropType.t accessor;
  getThickness : PropType.t accessor;
  getPickable : PropType.t indexed_accessor;
  drawOutline : bool;
  thicknessUnit : number;
  outlineThickness : number;
  outlineColor : RGBA;
  parameters : Parameters;
}.
End DefaultProps.

(** *** The layer object *)

Module AttributeManager.
Record settings : Type := mkSettings {
  accessor_name : string;
  size : nat;
  transition : bool;
  type : option string;
}.

Record attribute : Type := mkAttribute {
  attr_settings : settings;
  instanced : bool;
  needsUpdate : bool;
}.

Abbreviation t := (gmap string attribute).

Definition addInstanced (attrs : list (string * settings)) (am : t) : t :=
  foldl (fun m kv => <[kv.1 := mkAttribute kv.2 true true]> m) am attrs.

Definition invalidateAll (am : t) : t :=
  (fun a => mkAttribute (attr_settings a) (instanced a) true) <$> am.
End AttributeManager.

Module Context.
Record t : Type := mk { device : Device.t; gl_lineWidth : number }.
End Context.

Module State.
Record t : Type := mk { model : option Model.t }.
End State.

Module Layer.
Record t : Type := mk {
  props : Props.t;
  state : State.t;
  attributeManager : option AttributeManager.t;
  context : Context.t;
}.

Definition with_props (p : Props.t) (l : t) : t :=
  mk p (state l) (attributeManager l) (context l).
Definition with_model (m : option Model.t) (l : t) : t :=
  mk (props l) (State.mk m) (attributeManager l) (context l).
Definition with_attributeManager (am : option AttributeManager.t) (l : t) : t :=
  mk (props l) (state l) am (context l).
Definition with_device (d : Device.t) (l : t) : t :=
  mk (props l) (state l) (attributeManager l)
     (Context.mk d (Context.gl_lineWidth (context l))).
Definition with_lineWidth (w : number) (l : t) : t :=
  mk (props l) (state l) (attributeManager l)
     (Context.mk (Context.device (context l)) w).
End Layer.

(** A method of the layer: it reads and updates the layer object and
    returns normally or throws; the updates made before a throw stay. *)
Definition M (A : Type) : Type := Layer.t -> completion A * Layer.t.

#[export] Instance M_ret : MRet M := fun A a this => (Normal a, this).
#[export] Instance M_bind : MBind M := fun A B f m this =>
  match m this with
  | (Normal a, this') => f a this'
  | (Throw e, this') => (Throw e, this')
  end.

Definition throw {A : Type} (e : error) : M A := fun this => (Throw e, this).
Definition gets {A : Type} (f : Layer.t -> A) : M A := fun this => (Normal (f this), this).
Definition modify (f : Layer.t -> Layer.t) : M unit := fun this => (Normal tt, f this).

Module ChangeFlags.
Record t : Type := mk {
  dataChanged : bool;
  propsChanged : bool;
  updateTriggersChanged : bool;
  extensionsChanged : bool;
}.
End ChangeFlags.

Module UpdateParameters.
Record t : Type := mk {
  props : Props.t;
  oldProps : option Props.t;
  changeFlags : ChangeFlags.t;
}.
End UpdateParameters.

Record Shaders : Type := mkShaders {
  sh_vs : string;
  sh_fs : string;
  sh_modules : list string;
}.

Section Methods.

(** The two shader sources, imported from GLSL files. *)
Variables (vs fs : string).

(** [colorAsRgba] of the data package. *)
Variable colorAsRgba : value -> value.

(** [updateState] of the base class [Layer] of the host framework. *)
Variable Layer_updateState : UpdateParameters.t -> Layer.t -> Layer.t.

Definition defaultProps : DefaultProps.t :=
  {| DefaultProps.getSourcePosition :=
       PropType.mk "accessor" (fun d => Normal (Arr [Num 0; Num 0]));
     DefaultProps.getTargetPosition :=
       PropType.mk "accessor" (fun d => Normal (Arr [Num 0; Num 0]));
     DefaultProps.getColor :=
       PropType.mk "accessor" (fun d =>
         color ← get d "color";
         mret (or_ (and_ color (colorAsRgba color)) (rgba_value DEFAULT_COLOR)));
     DefaultProps.getThickness :=
       PropType.mk "accessor" (fun d => get d "count");
     DefaultProps.getPickable :=
       PropType.mk "accessor" (fun d index => Normal (Num 1.0));
     DefaultProps.drawOutline := true;
     DefaultProps.thicknessUnit := 12;
     DefaultProps.outlineThickness := 1;
     DefaultProps.outlineColor := [255; 255; 255; 255]%float;
     DefaultProps.parameters := {| depthTest := false |} |}.

(** [new FlowLinesLayer(props)]: the base constructor fills every prop
    the caller left out from [defaultProps], and [opacity] and [pickable]
    from the base class's own defaults, 1 and false. *)
Definition constructor (p : UserProps.t) : Props.t :=
  let d := defaultProps in
  {| Props.id := UserProps.id p;
     Props.opacity := default 1%float (UserProps.opacity p);
     Props.pickable := default false (UserProps.pickable p);
     Props.data := UserProps.data p;
     Props.drawOutline :=
       default (DefaultProps.drawOutline d) (UserProps.drawOutline p);
     Props.outlineColor :=
       default (DefaultProps.outlineColor d) (UserProps.outlineColor p);
     Props.outlineThickness :=
       default (DefaultProps.outlineThickness d) (UserProps.outlineThickness p);
     Props.thicknessUnit :=
       default (DefaultProps.thicknessUnit d) (UserProps.thicknessUnit p);
     Props.getSourcePosition :=
       default (PropType.value (DefaultProps.getSourcePosition d))
               (UserProps.getSourcePosition p);
     Props.getTargetPosition :=
       default (PropType.value (DefaultProps.getTargetPosition d))
               (UserProps.getTargetPosition p);
     Props.getColor :=
       default (PropType.value (DefaultProps.getColor d)) (UserProps.getColor p);
     Props.getThickness :=
       default (PropType.value (DefaultProps.getThickness d))
               (UserProps.getThickness p);
     Props.getPickable :=
       default (PropType.value (DefaultProps.getPickable d))
               (UserProps.getPickable p);
     Props.getEndpointOffsets := UserProps.getEndpointOffsets p;
     Props.parameters :=
       default (DefaultProps.parameters d) (UserProps.parameters p) |}.

Definition getShaders : Shaders :=
  {| sh_vs := vs; sh_fs := fs; sh_modules := ["project32"; "picking"] |}.

Definition getAttributeManager : M (option AttributeManager.t) :=
  gets Layer.attributeManager.

Definition initializeState : M unit :=
  attributeManager ← getAttributeManager;
  match attributeManager with
  | None => mret tt
  | Some am =>
      modify (Layer.with_attributeManager (Some (
        AttributeManager.addInstanced
          [ ("instanceSourcePositions",
             AttributeManager.mkSettings "getSourcePosition" 3 false (Some "float64"));
            ("instanceTargetPositions",
             AttributeManager.mkSettings "getTargetPosition" 3 false (Some "float64"));
            ("instanceThickness",
             AttributeManager.mkSettings "getThickness" 1 false None);
            ("instanceEndpointOffsets",
             AttributeManager.mkSettings "getEndpointOffsets" 2 false None);
            ("instanceColors",
             AttributeManager.mkSettings "getColor" 4 false (Some "unorm8"));
            ("instancePickable",
             AttributeManager.mkSettings "getPickable" 1 false None) ]
          am)))
  end.

Definition _getModel : M Model.t := fun this =>
  let positions : list number := [] in
  let pixelOffsets : list number := [] in
  let drawOutline := Props.drawOutline (Layer.props this) in
  let outlineThickness := Props.outlineThickness (Layer.props this) in
  let '(positions, pixelOffsets) :=
    if drawOutline then
      let positions := positions ++ POSITIONS in
      let tout := outlineThickness in
      let tin := INNER_SIDE_OUTLINE_THICKNESS in
      let pixelOffsets := pixelOffsets ++ getOutlinePixelOffsets tout tin in
      (positions, pixelOffsets)
    else (positions, pixelOffsets) in
  let positions := positions ++ POSITIONS in
  let pixelOffsets := pixelOffsets ++ ZEROES in
  let '(model, device) :=
    newModel (Context.device (Layer.context this))
      {| mp_id := Props.id (Layer.props this);
         mp_vs := sh_vs getShaders;
         mp_fs := sh_fs getShaders;
         mp_modules := sh_modules getShaders;
         mp_geometry :=
           {| Geometry.topology := "triangle-list";
              Geometry.positions := Attribute.mk 3 (Float32Array positions);
              Geometry.normals := Attribute.mk 3 (Float32Array pixelOffsets) |};
         mp_isInstanced := true |} in
  (Normal model, Layer.with_device device this).

Definition destroy (model : option Model.t) : M unit :=
  match model with
  | None => mret tt
  | Some m =>
      modify (fun this =>
        Layer.with_device (destroyModel m (Context.device (Layer.context this))) this)
  end.

Definition updateState (params : UpdateParameters.t) : M unit :=
  modify (Layer_updateState params) ;;
  if ChangeFlags.extensionsChanged (UpdateParameters.changeFlags params) then
    old ← gets (fun this => State.model (Layer.state this));
    destroy old ;;
    model ← _getModel;
    modify (Layer.with_model (Some model)) ;;
    attributeManager ← getAttributeManager;
    match attributeManager with
    | None => throw (TypeError "Cannot read properties of null: invalidateAll")
    | Some am =>
        modify (Layer.with_attributeManager (Some (AttributeManager.invalidateAll am)))
    end
  else mret tt.

Definition draw (uniforms : gmap string uniform) : M unit :=
  outlineColor ← gets (fun this => Props.outlineColor (Layer.props this));
  thicknessUnit ← gets (fun this => Props.thicknessUnit (Layer.props this));
  modify (Layer.with_lineWidth 1) ;;
  model ← gets (fun this => State.model (Layer.state this));
  match model with
  | None => throw (TypeError "Cannot read properties of undefined: setUniforms")
  | Some model =>
      let u :=
        <["gap" := UNumber 0.5]> (
        <["thicknessUnit" := UNumber (thicknessUnit * 2.0)]> (
        <["outlineColor" := UVector (map (fun x => x / 255) outlineColor)%float]>
        uniforms)) in
      let '(returned, model) := Model.setUniforms u model in
      modify (Layer.with_model (Some model)) ;;
      match get returned "draw" with
      | Throw e => throw e
      | Normal _ => throw (TypeError "draw is not a function")
      end
  end.

(** The host calls [updateState] with the layer's props already replaced
    by the new ones ([params.props] is [this.props]). *)
Definition update (params : UpdateParameters.t) : M unit := fun this =>
  updateState params (Layer.with_props (UpdateParameters.props params) this).

(** The state the layer object is left in by a sequence of update calls. *)
Definition updates (ps : list UpdateParameters.t) (this : Layer.t) : Layer.t :=
  foldl (fun l params => (update params l).2) this ps.

End Methods.

End FlowLinesLayer.

(** ** The example application: tooltips *)

Module App.

(** Modelled from the spec: the enum [PickingType] is declared in the layers
    package, whose source is not at hand; the spec names its two tags,
    "location" and "flow". *)
Module PickingType.
Definition LOCATION : string := "location".
Definition FLOW : string := "flow".
End PickingType.

(** What a component renders: text, the value of an embedded expression, an
    element with its children, or a fragment. *)
Inductive ReactNode : Type :=
| Text (s : string)
| Expr (v : value)
| Element (tag : string) (children : list ReactNode)
| Fragment (children : list ReactNode).

Record Position : Type := mkPosition { left : value; top : value }.

Record TooltipState : Type := mkTooltipState {
  position : Position;
  content : ReactNode;
}.

Definition getTooltipState (info : value) : completion (option TooltipState) :=
  if negb (truthy info) then mret None
  else
    x ← get info "x";
    y ← get info "y";
    type ← get info "type";
    let position := {| left := x; top := y |} in
    if strict_eq_str type PickingType.LOCATION then
      name ← get info "name";
      incomingCount ← get info "totals" ≫= (fun totals => get totals "incomingCount");
      outgoingCount ← get info "totals" ≫= (fun totals => get totals "outgoingCount");
      internalCount ← get info "totals" ≫= (fun totals => get totals "internalCount");
      mret (Some {|
        position := position;
        content :=
          Fragment
            [ Element "div" [Expr name];
              Element "div" [Text "Incoming trips: "; Expr incomingCount];
              Element "div" [Text "Outgoing trips: "; Expr outgoingCount];
              Element "div" [Text "Internal or round trips: "; Expr internalCount] ]
      |})
    else if strict_eq_str type PickingType.FLOW then
      originId ← get info "origin" ≫= (fun origin => get origin "id");
      destId ← get info "dest" ≫= (fun dest => get dest "id");
      count ← get info "count";
      mret (Some {|
        position := position;
        content :=
          Fragment
            [ Element "div" [Expr originId; Text " → "; Expr destId];
              Element "div" [Expr count] ]
      |})
    else mret None.

End App.

(** ** What the specification's words mean on these values *)

Module Spec.
Import FlowLinesLayer.

(** The number that a byte [n] is. *)
Definition byte (n : Z) : number := PrimFloat.of_uint63 (Uint63Axioms.of_Z n).

Definition is_byte (x : number) : Prop :=
  ∃ n : Z, (0 ≤ n ≤ 255)%Z ∧ x = byte n.

(** Four RGBA bytes, each in [0,255]. *)
Definition is_RGBA (v : value) : Prop :=
  ∃ r g b a : number,
    v = Arr [Num r; Num g; Num b; Num a] ∧
    is_byte r ∧ is_byte g ∧ is_byte b ∧ is_byte a.

(** The value of a record's colour field, undefined when it has none. *)
Definition record_colour (record : gmap string value) : value :=
  default Undefined (record !! "color").

(** Modelled from the spec: [colorAsRgba] belongs to the data package, whose
    source is not at hand.  The spec says that it converts whatever colour
    representation it is given to RGBA bytes; a result that is not a colour
    at all is falsy, which the layer's accessor replaces by the default. *)
Definition colorAsRgba_contract (colorAsRgba : value -> value) : Prop :=
  ∀ color, truthy (colorAsRgba color) = true → is_RGBA (colorAsRgba color).

(** The base class's [updateState] leaves the layer's model, its props and
    the rendering context alone (it works on the attribute manager). *)
Definition base_frame
    (Layer_updateState : UpdateParameters.t → Layer.t → Layer.t) : Prop :=
  ∀ params this,
    Layer.props (Layer_updateState params this) = Layer.props this ∧
    Layer.state (Layer_updateState params this) = Layer.state this ∧
    Layer.context (Layer_updateState params this) = Layer.context this.

(** How many of a sequence of updates report changed extensions. *)
Definition extensionChanges (ps : list UpdateParameters.t) : nat :=
  length (List.filter
            (fun p => ChangeFlags.extensionsChanged (UpdateParameters.changeFlags p))
            ps).

(** The last [n] entries of an array. *)
Definition last_n {A : Type} (n : nat) (xs : list A) : list A :=
  drop (length xs - n) xs.

(** [n] copies of the triple [(a, b, c)], flattened. *)
Definition triples {A : Type} (n : nat) (a b c : A) : list A :=
  concat (replicate n [a; b; c]).

(** The third component of every triple of a flattened array. *)
Fixpoint thirds {A : Type} (xs : list A) : list A :=
  match xs with
  | _ :: _ :: c :: rest => c :: thirds rest
  | _ => []
  end.

End Spec.

(** ** The specification's end-to-end scenario, and stand-ins for the host *)

Module Scenario.
Import FlowLinesLayer Luma.

(** Two flows, A to B with magnitude 10 and B to C with magnitude 5. *)
Definition flows : list value :=
  [ Obj {[ "origin" := Str "A"; "dest" := Str "B"; "count" := Num 10 ]};
    Obj {[ "origin" := Str "B"; "dest" := Str "C"; "count" := Num 5 ]} ].

(** A caller that passes the data and nothing else. *)
Definition userProps : UserProps.t :=
  {| UserProps.id := "flow-lines";
     UserProps.opacity := None;
     UserProps.pickable := None;
     UserProps.data := flows;
     UserProps.drawOutline := None;
     UserProps.outlineColor := None;
     UserProps.outlineThickness := None;
     UserProps.thicknessUnit := None;
     UserProps.getSourcePosition := None;
     UserProps.getTargetPosition := None;
     UserProps.getColor := None;
     UserProps.getThickness := None;
     UserProps.getPickable := None;
     UserProps.getEndpointOffsets := None;
     UserProps.parameters := None |}.

(** A colour conversion that knows two colour names and nothing else. *)
Definition namedColor (color : value) : value :=
  match color with
  | Str s =>
      if String.eqb s "red" then rgba_value [255; 0; 0; 255]%float
      else if String.eqb s "black" then rgba_value [0; 0; 0; 255]%float
      else Undefined
  | _ => Undefined
  end.

(** The base class's [updateState] as the host framework has it: attributes
    are invalidated when the data changed. *)
Definition hostUpdateState (params : UpdateParameters.t) (this : Layer.t) : Layer.t :=
  if ChangeFlags.dataChanged (UpdateParameters.changeFlags params) then
    Layer.with_attributeManager
      (AttributeManager.invalidateAll <$> Layer.attributeManager this) this
  else this.

Definition props : Props.t := constructor namedColor userProps.

(** The layer object before its first update. *)
Definition layer : Layer.t :=
  {| Layer.props := props;
     Layer.state := State.mk None;
     Layer.attributeManager := Some ∅;
     Layer.context := Context.mk (Device.mk 0 []) 1%float |}.

Definition flags (extensionsChanged : bool) : ChangeFlags.t :=
  ChangeFlags.mk false true false extensionsChanged.

(** The first update: nothing to compare with, every flag raised. *)
Definition firstUpdate : UpdateParameters.t :=
  UpdateParameters.mk props None (ChangeFlags.mk true true true true).

(** A later update with the same props in which the host reports changed
    extensions. *)
Definition extensionsUpdate : UpdateParameters.t :=
  UpdateParameters.mk props (Some props) (flags true).

(** A later update that switches the outline off, with no extension
    change. *)
Definition outlineOffUpdate : UpdateParameters.t :=
  UpdateParameters.mk (Props.with_drawOutline false props) (Some props) (flags false).

(** The layer after initialisation and its first update. *)
Definition drawnLayer : Layer.t :=
  (update "vs" "fs" hostUpdateState firstUpdate (initializeState layer).2).2.

(** What the host reports for a hover over the first flow, over location A,
    and an info with a tag the application does not know. *)
Definition flowInfo : gmap string value :=
  {[ "type" := Str "flow"; "x" := Num 3; "y" := Num 4;
     "origin" := Obj {[ "id" := Str "A" ]};
     "dest" := Obj {[ "id" := Str "B" ]};
     "count" := Num 10 ]}.

Definition locationInfo : gmap string value :=
  {[ "type" := Str "location"; "x" := Num 7; "y" := Num 9;
     "name" := Str "A";
     "totals" := Obj {[ "incomingCount" := Num 0;
                        "outgoingCount" := Num 10;
                        "internalCount" := Num 0 ]} ]}.

Definition otherInfo : gmap string value :=
  {[ "type" := Str "location-area"; "x" := Num 1; "y" := Num 2 ]}.

End Scenario.

(** ** The layer's lifecycle as the host drives it *)

Module Lifecycle.
Import FlowLinesLayer Luma.

(** One call of the host on the layer object. *)
Inductive call : Type :=
| Initialize
| Update (params : UpdateParameters.t)
| Draw (uniforms : gmap string uniform).

Definition perform
    (vs fs : string) (Layer_updateState : UpdateParameters.t → Layer.t → Layer.t)
    (c : call) : M unit :=
  match c with
  | Initialize => initializeState
  | Update params => update vs fs Layer_updateState params
  | Draw uniforms => draw uniforms
  end.

(** The layer object after a sequence of calls; a call that throws leaves the
    object as it was at the throw, and the host goes on. *)
Definition run
    (vs fs : string) (Layer_updateState : UpdateParameters.t → Layer.t → Layer.t)
    (cs : list call) (this : Layer.t) : Layer.t :=
  foldl (fun l c => (perform vs fs Layer_updateState c l).2) this cs.

(** Whether a call is an update that reports changed extensions. *)
Definition rebuilds (c : call) : bool :=
  match c with
  | Update params => ChangeFlags.extensionsChanged (UpdateParameters.changeFlags params)
  | _ => false
  end.

(** The handle of the model the layer holds, if it holds one. *)
Definition live (this : Layer.t) : list nat :=
  match State.model (Layer.state this) with
  | Some model => [Model.handle model]
  | None => []
  end.

(** Every model created on the device is the layer's current model or has
    been destroyed, and none is both or destroyed twice: the handles of the
    current model and of the destroyed ones are the numbers below
    [created], each once. *)
Definition accounted (this : Layer.t) : Prop :=
  let device := Context.device (Layer.context this) in
  NoDup (live this ++ Device.destroyed device) ∧
  (∀ h, h ∈ live this ++ Device.destroyed device → h < Device.created device) ∧
  length (live this ++ Device.destroyed device) = Device.created device.

(** The [i]-th vertex of a flattened array of triples. *)
Definition vertex {A : Type} (i : nat) (xs : list A) : list A :=
  take 3 (drop (3 * i) xs).

End Lifecycle.

(** ** The example application's component *)

Module AppComponent.
Import App.

Definition MAPBOX_STYLE_LIGHT : string := "mapbox://styles/mapbox/streets-v11".
Definition MAPBOX_STYLE_DARK : string := MAPBOX_STYLE_LIGHT.

(** The closures the component hands to its children. *)
Inductive Handler : Type :=
| HandleViewStateChange
| OnHover
| OnClick.

(** The props of the one [FlowmapLayer] the component creates. *)
Module FlowmapLayerProps.
Record t : Type := mk {
  id : string;
  data : value;
  pickable : bool;
  darkMode : value;
  colorScheme : value;
  fadeAmount : value;
  fadeEnabled : value;
  fadeOpacityEnabled : value;
  locationTotalsEnabled : value;
  animationEnabled : value;
  clusteringEnabled : value;
  clusteringAuto : value;
  clusteringLevel : value;
  adaptiveScalesEnabled : value;
  highlightColor : value;
  getLocationId : value → completion value;
  getLocationCentroid : value → completion value;
  getFlowOriginId : value → completion value;
  getFlowDestId : value → completion value;
  getFlowMagnitude : value → completion value;
  getLocationName : value → completion value;
  onHover : Handler;
  onClick : Handler;
}.
End FlowmapLayerProps.

(** What the component renders. *)
Inductive Rendered : Type :=
| Div (className : string) (style : gmap string value) (children : list Rendered)
| DeckGL (width height : string) (viewState : value)
    (onViewStateChange : Handler) (controller : bool)
    (layers : list FlowmapLayerProps.t) (style : gmap string value)
    (children : list Rendered)
| StaticMap (mapboxApiAccessToken : value) (mapStyle : string)
| Embedded (v : value)
| Content (c : ReactNode).

(** The three [useState] cells. *)
Record Hooks : Type := mkHooks {
  viewState : value;
  data : value;
  tooltip : option TooltipState;
}.

(** The cells on the first render: [useState()] without an argument. *)
Definition initialHooks : Hooks := mkHooks Undefined Undefined None.

(** A handler reads and sets the cells and returns normally or throws. *)
Definition H (A : Type) : Type := Hooks → completion A * Hooks.

Definition setViewState (v : value) (h : Hooks) : Hooks :=
  mkHooks v (data h) (tooltip h).
Definition setData (v : value) (h : Hooks) : Hooks :=
  mkHooks (viewState h) v (tooltip h).
Definition setTooltip (t : option TooltipState) (h : Hooks) : Hooks :=
  mkHooks (viewState h) (data h) t.

(** [{...v}]: the own enumerable properties of a value: the fields of an
    object, the elements of an array and the code units of a string under
    their indices, and none for any other value. *)
Definition spread (v : value) : gmap string value :=
  match v with
  | Obj o => o
  | Arr l => list_to_map (imap (fun i x => (pretty i, x)) l)
  | Str s =>
      list_to_map
        (imap (fun i c => (pretty i, Str (String c EmptyString)))
              (list_ascii_of_string s))
  | _ => ∅
  end.

(** [(loc) => [loc.lon, loc.lat]] *)
Definition centroid (loc : value) : completion value :=
  lon ← get loc "lon";
  lat ← get loc "lat";
  mret (Arr [lon; lat]).

(** [config.key] of the configuration object. *)
Definition option_of (config : gmap string value) (key : string) : value :=
  default Undefined (config !! key).

Section Component.

(** [process.env.REACT_APP_MAPBOX_ACCESS_TOKEN] *)
Variable MAPBOX_ACCESS_TOKEN : value.

(** [getViewStateForLocations] of the data package: the view state that
    shows the given locations in a window of the given size (with the
    constant padding 0.3).  It may call the accessor it is given, and it may
    throw. *)
Variable getViewStateForLocations :
  value → (value → completion value) → value → value → completion value.

(** The body of the effect once [fetchData] has resolved with [fetched] in a
    window of the given inner width and height. *)
Definition onFetched (fetched innerWidth innerHeight : value) : H unit := fun h =>
  match get fetched "locations", get fetched "flows" with
  | Normal locations, Normal flows =>
      let h := setData (Obj {[ "locations" := locations; "flows" := flows ]}) h in
      let width := innerWidth in
      let height := innerHeight in
      match getViewStateForLocations locations centroid width height with
      | Normal viewState =>
          (Normal tt,
           setViewState
             (Obj (<["height" := height]> (<["width" := width]> (spread viewState))))
             h)
      | Throw e => (Throw e, h)
      end
  | Throw e, _ => (Throw e, h)
  | _, Throw e => (Throw e, h)
  end.

Definition handleViewStateChange (arg : value) : H unit := fun h =>
  match get arg "viewState" with
  | Normal viewState => (Normal tt, setTooltip None (setViewState viewState h))
  | Throw e => (Throw e, h)
  end.

(** [onHover: (info) => setTooltip(getTooltipState(info))] *)
Definition onHoverHandler (info : value) : H unit := fun h =>
  match getTooltipState info with
  | Normal t => (Normal tt, setTooltip t h)
  | Throw e => (Throw e, h)
  end.

(** [onClick: (info) => console.log('clicked', info.type, info.object)]: the
    arguments logged. *)
Definition onClickHandler (info : value) : completion (list value) :=
  type ← get info "type";
  object ← get info "object";
  mret [Str "clicked"; type; object].

(** The layers of one render. *)
Definition layers (config : gmap string value) (h : Hooks) : list FlowmapLayerProps.t :=
  if truthy (data h) then
    [ {| FlowmapLayerProps.id := "my-flowmap-layer";
         FlowmapLayerProps.data := data h;
         FlowmapLayerProps.pickable := true;
         FlowmapLayerProps.darkMode := option_of config "darkMode";
         FlowmapLayerProps.colorScheme := option_of config "colorScheme";
         FlowmapLayerProps.fadeAmount := option_of config "fadeAmount";
         FlowmapLayerProps.fadeEnabled := option_of config "fadeEnabled";
         FlowmapLayerProps.fadeOpacityEnabled := option_of config "fadeOpacityEnabled";
         FlowmapLayerProps.locationTotalsEnabled := option_of config "locationTotalsEnabled";
         FlowmapLayerProps.animationEnabled := option_of config "animationEnabled";
         FlowmapLayerProps.clusteringEnabled := option_of config "clusteringEnabled";
         FlowmapLayerProps.clusteringAuto := option_of config "clusteringAuto";
         FlowmapLayerProps.clusteringLevel := option_of config "clusteringLevel";
         FlowmapLayerProps.adaptiveScalesEnabled := option_of config "adaptiveScalesEnabled";
         FlowmapLayerProps.highlightColor := option_of config "highlightColor";
         FlowmapLayerProps.getLocationId := fun loc => get loc "id";
         FlowmapLayerProps.getLocationCentroid := centroid;
         FlowmapLayerProps.getFlowOriginId := fun flow => get flow "origin";
         FlowmapLayerProps.getFlowDestId := fun flow => get flow "dest";
         FlowmapLayerProps.getFlowMagnitude := fun flow => get flow "count";
         FlowmapLayerProps.getLocationName := fun loc => get loc "name";
         FlowmapLayerProps.onHover := OnHover;
         FlowmapLayerProps.onClick := OnClick |} ]
  else [].

(** One render of [App] with the configuration [config] that [useUI] returned
    and the cells [h]; [None] is the component's [null]. *)
Definition App (config : gmap string value) (h : Hooks) : option Rendered :=
  let layers := layers config h in
  if negb (truthy (viewState h)) then None
  else
    let dark := truthy (option_of config "darkMode") in
    Some (
      Div ("flowmap-container " ++ (if dark then "dark" else "light"))
        {[ "position" := Str "relative" ]}
        [ DeckGL "100%" "100%" (viewState h) HandleViewStateChange true layers
            {[ "mixBlendMode" := Str (if dark then "screen" else "darken") ]}
            [ StaticMap MAPBOX_ACCESS_TOKEN
                (if dark then MAPBOX_STYLE_DARK else MAPBOX_STYLE_LIGHT) ];
          match tooltip h with
          | Some tooltip =>
              Div "tooltip"
                {[ "left" := left (position tooltip); "top" := top (position tooltip) ]}
                [Content (content tooltip)]
          | None => Embedded Undefined
          end ]).

End Component.

End AppComponent.

(** ** More layers and inputs to try the properties on *)

Module Examples.
Import FlowLinesLayer Luma.

(** The scenario's layer with outlines switched off. *)
Definition plainLayer : Layer.t :=
  Layer.with_props (Props.with_drawOutline false Scenario.props) Scenario.layer.

(** The scenario's layer before the host gave it an attribute manager. *)
Definition unmanagedLayer : Layer.t :=
  Layer.with_attributeManager None Scenario.layer.

(** Uniforms as a host passes them to [draw]. *)
Definition hostUniforms : gmap string uniform :=
  {[ "opacity" := UNumber 1; "gap" := UNumber 7 ]}.

(** A hover over a flow whose picking info lost its origin. *)
Definition brokenFlowInfo : gmap string value :=
  {[ "type" := Str "flow"; "x" := Num 3; "y" := Num 4;
     "dest" := Obj {[ "id" := Str "B" ]}; "count" := Num 10 ]}.

(** What [fetchData] resolves with in the scenario. *)
Definition fetched : value :=
  Obj {[ "locations" :=
           Arr [ Obj {[ "id" := Str "A"; "lon" := Num 0; "lat" := Num 0 ]};
                 Obj {[ "id" := Str "B"; "lon" := Num 1; "lat" := Num 0 ]};
                 Obj {[ "id" := Str "C"; "lon" := Num 0; "lat" := Num 1 ]} ];
         "flows" := Arr Scenario.flows ]}.

(** A stand-in for [getViewStateForLocations]: a fixed view that carries a
    width of its own. *)
Definition fixedView
    (locations : value) (getCentroid : value → completion value)
    (width height : value) : completion value :=
  Normal (Obj {[ "longitude" := Num 0; "latitude" := Num 0; "zoom" := Num 5;
                 "width" := Num 1 ]}).

End Examples.

(** ** Reading values and rendered trees *)

Module Reading.
Import AppComponent.

(** [o.key] of an object. *)
Definition field (o : gmap string value) (key : string) : value :=
  default Undefined (o !! key).

(** undefined or null. *)
Definition nullish (v : value) : bool :=
  match v with
  | Undefined | Null => true
  | _ => false
  end.

(** The map styles of the [StaticMap] elements of a rendered tree. *)
Fixpoint mapStyles (r : Rendered) : list string :=
  match r with
  | Div _ _ children => concat (map mapStyles children)
  | DeckGL _ _ _ _ _ _ _ children => concat (map mapStyles children)
  | StaticMap _ mapStyle => [mapStyle]
  | Embedded _ => []
  | Content _ => []
  end.

(** The layers handed to the [DeckGL] elements of a rendered tree. *)
Fixpoint deckLayers (r : Rendered) : list FlowmapLayerProps.t :=
  match r with
  | Div _ _ children => concat (map deckLayers children)
  | DeckGL _ _ _ _ _ layers _ children => layers ++ concat (map deckLayers children)
  | StaticMap _ _ => []
  | Embedded _ => []
  | Content _ => []
  end.

(** The tooltip elements of a rendered tree: style and children of every
    [div] of class "tooltip". *)
Fixpoint tooltipElements (r : Rendered) : list (gmap string value * list Rendered) :=
  match r with
  | Div className style children =>
      (if String.eqb className "tooltip" then [(style, children)] else [])
      ++ concat (map tooltipElements children)
  | DeckGL _ _ _ _ _ _ _ children => concat (map tooltipElements children)
  | StaticMap _ _ => []
  | Embedded _ => []
  | Content _ => []
  end.

End Reading.

(** * Properties *)

Import Luma FlowLinesLayer Spec.

#[local] Arguments fround : simpl never.

(** ** Arrays of numbers *)

Lemma Float32Array_length (xs : list number) :
  length (Float32Array xs) = length xs.
Proof. unfold Float32Array. apply length_map. Qed.

Lemma Float32Array_app (xs ys : list number) :
  Float32Array (xs ++ ys) = Float32Array xs ++ Float32Array ys.
Proof. unfold Float32Array. apply map_app. Qed.

Lemma Float32Array_POSITIONS : Float32Array POSITIONS = POSITIONS.
Proof. vm_compute. reflexivity. Qed.

Lemma Float32Array_ZEROES : Float32Array ZEROES = ZEROES.
Proof. vm_compute. reflexivity. Qed.

Lemma getOutlinePixelOffsets_length (tout tin : number) :
  length (getOutlinePixelOffsets tout tin) = 27.
Proof. reflexivity. Qed.

(** Two numbers with different binary representations are different. *)
Lemma number_neq (x y : number) : Prim2SF x ≠ Prim2SF y → x ≠ y.
Proof. intros Hne Heq. apply Hne. now rewrite Heq. Qed.

Lemma one_neq_zero : 1%float ≠ 0%float.
Proof. apply number_neq. vm_compute. discriminate. Qed.

(** ** The model that [_getModel] returns *)

(** [_getModel] never throws; it creates one resource on the device and
    leaves the rest of the layer as it was. *)
Lemma getModel_returns (vs fs : string) (this : Layer.t) :
  ∃ model,
    _getModel vs fs this =
      (Normal model,
       Layer.with_device
         (Device.mk (S (Device.created (Context.device (Layer.context this))))
                    (Device.destroyed (Context.device (Layer.context this))))
         this) ∧
    Model.handle model = Device.created (Context.device (Layer.context this)) ∧
    Model.geometry model =
      {| Geometry.topology := "triangle-list";
         Geometry.positions :=
           Attribute.mk 3 (Float32Array
             (if Props.drawOutline (Layer.props this)
              then POSITIONS ++ POSITIONS else POSITIONS));
         Geometry.normals :=
           Attribute.mk 3 (Float32Array
             (if Props.drawOutline (Layer.props this)
              then getOutlinePixelOffsets (Props.outlineThickness (Layer.props this))
                     INNER_SIDE_OUTLINE_THICKNESS ++ ZEROES
              else ZEROES)) |}.
Proof.
  unfold _getModel.
  destruct (Props.drawOutline (Layer.props this)); eexists; repeat split.
Qed.

(** The model depends on the layer's props and on the count of resources
    the device has created, and on nothing else of the layer. *)
Lemma getModel_depends (vs fs : string) (this that : Layer.t) :
  Layer.props this = Layer.props that →
  Device.created (Context.device (Layer.context this)) =
    Device.created (Context.device (Layer.context that)) →
  (_getModel vs fs this).1 = (_getModel vs fs that).1.
Proof.
  intros Hprops Hcreated. unfold _getModel. rewrite Hprops.
  destruct (Props.drawOutline (Layer.props that)); cbn; rewrite Hcreated;
    reflexivity.
Qed.

(** With outlines on, the two arrays of the template are the outline shell
    followed by the fill shape. *)
Lemma getModel_outlined (vs fs : string) (this : Layer.t) :
  Props.drawOutline (Layer.props this) = true →
  ∃ model this',
    _getModel vs fs this = (Normal model, this') ∧
    Attribute.value (Geometry.positions (Model.geometry model)) =
      POSITIONS ++ POSITIONS ∧
    Attribute.value (Geometry.normals (Model.geometry model)) =
      Float32Array (getOutlinePixelOffsets (Props.outlineThickness (Layer.props this))
                      INNER_SIDE_OUTLINE_THICKNESS) ++ ZEROES.
Proof.
  intros Hon. destruct (getModel_returns vs fs this) as (model & Hrun & _ & Hgeo).
  exists model. eexists. split; [exact Hrun |].
  rewrite Hgeo, Hon. cbn [Geometry.positions Geometry.normals Attribute.value].
  rewrite !Float32Array_app, Float32Array_POSITIONS, Float32Array_ZEROES.
  split; reflexivity.
Qed.

(** ** The geometry template *)

(** C1, as the code has it: with outlines on, the fill shape comes last in the
    pixel-offsets array and its nine triples are (0, 0, 0): pixel offsets and
    colour-mix flag are all zero.  The mix flag 1 is that of the outline shell
    in front of it. *)
Theorem fill_shape_last_all_zero (vs fs : string) (this : Layer.t) :
  Props.drawOutline (Layer.props this) = true →
  ∃ model this',
    _getModel vs fs this = (Normal model, this') ∧
    let pixelOffsets := Attribute.value (Geometry.normals (Model.geometry model)) in
    last_n 27 pixelOffsets = triples 9 0%float 0%float 0%float ∧
    thirds (take 27 pixelOffsets) = replicate 9 1%float.
Proof.
  intros Hon.
  destruct (getModel_outlined vs fs this Hon) as (model & this' & Hrun & _ & Hoff).
  exists model, this'. split; [exact Hrun |]. cbn zeta. rewrite Hoff.
  split.
  - unfold last_n. rewrite length_app, Float32Array_length.
    rewrite drop_app_length'; [reflexivity |].
    rewrite Float32Array_length. reflexivity.
  - rewrite take_app_length'
      by (rewrite Float32Array_length; reflexivity).
    unfold Float32Array, getOutlinePixelOffsets, INNER_SIDE_OUTLINE_THICKNESS.
    cbn [map thirds replicate].
    assert (H1 : fround 1 = 1%float) by (vm_compute; reflexivity).
    rewrite !H1. reflexivity.
Qed.

Lemma fill_shape_last_all_zero_witness :
  Props.drawOutline (Layer.props Scenario.layer) = true ∧
  ∃ model this',
    _getModel "vs" "fs" Scenario.layer = (Normal model, this') ∧
    let pixelOffsets := Attribute.value (Geometry.normals (Model.geometry model)) in
    last_n 27 pixelOffsets = triples 9 0%float 0%float 0%float ∧
    thirds (take 27 pixelOffsets) = replicate 9 1%float.
Proof.
  split; [reflexivity |].
  apply (fill_shape_last_all_zero "vs" "fs" Scenario.layer). reflexivity.
Defined.

(** C1 as stated fails: for the scenario's layer, which draws outlines, the
    last 27 entries of the pixel-offsets array are not nine triples
    (0, 0, 1). *)
Lemma fill_mix_flag_is_not_one :
  Props.drawOutline (Layer.props Scenario.layer) = true ∧
  ∃ model this',
    _getModel "vs" "fs" Scenario.layer = (Normal model, this') ∧
    last_n 27 (Attribute.value (Geometry.normals (Model.geometry model)))
      ≠ triples 9 0%float 0%float 1%float.
Proof.
  split; [reflexivity |]. eexists. eexists. split; [reflexivity |].
  intros H. apply (f_equal (fun xs => Prim2SF (nth 2 xs 0%float))) in H.
  vm_compute in H. discriminate H.
Qed.


(** C3: the template has 9 vertices (27 floats in each array) without outlines
    and 18 vertices (54 floats in each array) with outlines, whatever the
    outline thickness; replacing the flow records by any others gives the
    same model. *)
Theorem template_vertex_count (vs fs : string) (this : Layer.t) :
  ∃ model this',
    _getModel vs fs this = (Normal model, this') ∧
    let g := Model.geometry model in
    let vertices := if Props.drawOutline (Layer.props this) then 18 else 9 in
    Geometry.vertexCount g = vertices ∧
    length (Attribute.value (Geometry.positions g)) = 3 * vertices ∧
    length (Attribute.value (Geometry.normals g)) = 3 * vertices ∧
    ∀ data : list value,
      (_getModel vs fs
         (Layer.with_props (Props.with_data data (Layer.props this)) this)).1
      = Normal model.
Proof.
  destruct (getModel_returns vs fs this) as (model & Hrun & Hhandle & Hgeo).
  exists model. eexists. split; [exact Hrun |]. cbn zeta.
  unfold Geometry.vertexCount. rewrite Hgeo.
  cbn [Geometry.positions Geometry.normals Attribute.value Attribute.size].
  rewrite !Float32Array_length.
  split; [| split; [| split]].
  - destruct (Props.drawOutline (Layer.props this)); reflexivity.
  - destruct (Props.drawOutline (Layer.props this)); reflexivity.
  - destruct (Props.drawOutline (Layer.props this)); reflexivity.
  - intros data. transitivity ((_getModel vs fs this).1).
    + unfold _getModel. cbn.
      destruct (Props.drawOutline (Layer.props this)); reflexivity.
    + rewrite Hrun. reflexivity.
Qed.

(** C4: with outlines on, vertices 0-8 (the outline shell) and vertices 9-17
    (the fill shape) have the same 27 entries in the positions array, for
    every outline thickness; the pixel-offsets array is where the two shells
    differ. *)
Theorem shells_share_positions (vs fs : string) (this : Layer.t) :
  Props.drawOutline (Layer.props this) = true →
  ∃ model this',
    _getModel vs fs this = (Normal model, this') ∧
    let positions := Attribute.value (Geometry.positions (Model.geometry model)) in
    let pixelOffsets := Attribute.value (Geometry.normals (Model.geometry model)) in
    length positions = 54 ∧
    take 27 positions = drop 27 positions ∧
    take 27 pixelOffsets ≠ drop 27 pixelOffsets.
Proof.
  intros Hon.
  destruct (getModel_outlined vs fs this Hon) as (model & this' & Hrun & Hpos & Hoff).
  exists model, this'. split; [exact Hrun |]. cbn zeta. rewrite Hpos, Hoff.
  split; [reflexivity |]. split; [reflexivity |].
  rewrite take_app_length', drop_app_length'
    by (rewrite Float32Array_length; reflexivity).
  intros H. apply (f_equal (fun xs => nth 2 xs 0%float)) in H.
  unfold Float32Array, getOutlinePixelOffsets in H. cbn [map nth ZEROES] in H.
  assert (H1 : fround 1 = 1%float) by (vm_compute; reflexivity).
  rewrite H1 in H. exact (one_neq_zero H).
Qed.

Lemma shells_share_positions_witness :
  Props.drawOutline (Layer.props Scenario.layer) = true ∧
  ∃ model this',
    _getModel "vs" "fs" Scenario.layer = (Normal model, this') ∧
    let positions := Attribute.value (Geometry.positions (Model.geometry model)) in
    let pixelOffsets := Attribute.value (Geometry.normals (Model.geometry model)) in
    length positions = 54 ∧
    take 27 positions = drop 27 positions ∧
    take 27 pixelOffsets ≠ drop 27 pixelOffsets.
Proof.
  split; [reflexivity |].
  apply (shells_share_positions "vs" "fs" Scenario.layer). reflexivity.
Defined.

(** C5: the geometry of the template is a function of the pair (drawOutline,
    outlineThickness) alone; building it with outlines on, then off, then on
    again gives the same positions and pixel-offsets arrays as the first
    build; and for every outline thickness t, getOutlinePixelOffsets(t, 1)
    has exactly 27 values. *)
Theorem template_is_a_function_of_the_draw_mode :
  ∃ template : bool → number → Geometry.t,
    (∀ (vs fs : string) (this : Layer.t), ∃ model this',
       _getModel vs fs this = (Normal model, this') ∧
       Model.geometry model =
         template (Props.drawOutline (Layer.props this))
                  (Props.outlineThickness (Layer.props this))) ∧
    (∀ (vs fs : string) (this : Layer.t),
       let toggle b (l : Layer.t) :=
         Layer.with_props (Props.with_drawOutline b (Layer.props l)) l in
       let first := _getModel vs fs (toggle true this) in
       let second := _getModel vs fs (toggle false first.2) in
       let third := _getModel vs fs (toggle true second.2) in
       ∃ model1 model3,
         first.1 = Normal model1 ∧ third.1 = Normal model3 ∧
         Geometry.positions (Model.geometry model3) =
           Geometry.positions (Model.geometry model1) ∧
         Geometry.normals (Model.geometry model3) =
           Geometry.normals (Model.geometry model1)) ∧
    (∀ t : number,
       length (getOutlinePixelOffsets t INNER_SIDE_OUTLINE_THICKNESS) = 27 ∧
       INNER_SIDE_OUTLINE_THICKNESS = 1%float).
Proof.
  exists (fun (drawOutline : bool) (outlineThickness : number) =>
    {| Geometry.topology := "triangle-list";
       Geometry.positions :=
         Attribute.mk 3 (Float32Array
           (if drawOutline then POSITIONS ++ POSITIONS else POSITIONS));
       Geometry.normals :=
         Attribute.mk 3 (Float32Array
           (if drawOutline
            then getOutlinePixelOffsets outlineThickness
                   INNER_SIDE_OUTLINE_THICKNESS ++ ZEROES
            else ZEROES)) |}).
  split; [| split].
  - intros vs fs this.
    destruct (getModel_returns vs fs this) as (model & Hrun & _ & Hgeo).
    exists model. eexists. split; [exact Hrun | exact Hgeo].
  - intros vs fs this. cbn zeta.
    eexists. eexists. split; [reflexivity |]. split; [reflexivity |].
    split; reflexivity.
  - intros t. split; reflexivity.
Qed.

(** ** Default props *)

(** C8: the defaults are drawOutline = true, outlineColor = opaque white,
    outlineThickness = 1, thicknessUnit = 12 and draw parameters with the
    depth test off; a layer constructed without one of these props has the
    default. *)
Theorem default_configuration (colorAsRgba : value → value) (p : UserProps.t) :
  let d := defaultProps colorAsRgba in
  let props := constructor colorAsRgba p in
  DefaultProps.drawOutline d = true ∧
  DefaultProps.outlineColor d = [255; 255; 255; 255]%float ∧
  DefaultProps.outlineThickness d = 1%float ∧
  DefaultProps.thicknessUnit d = 12%float ∧
  depthTest (DefaultProps.parameters d) = false ∧
  Props.drawOutline props = default true (UserProps.drawOutline p) ∧
  Props.outlineColor props =
    default [255; 255; 255; 255]%float (UserProps.outlineColor p) ∧
  Props.outlineThickness props = default 1%float (UserProps.outlineThickness p) ∧
  Props.thicknessUnit props = default 12%float (UserProps.thicknessUnit p) ∧
  Props.parameters props = default (mkParameters false) (UserProps.parameters p).
Proof. cbn zeta. repeat split. Qed.

(** ** Default accessors *)

Lemma byte_is_byte (n : Z) : (0 ≤ n ≤ 255)%Z → is_byte (byte n).
Proof. intros Hn. exists n. split; [exact Hn | reflexivity]. Qed.

(** The default colour is itself four RGBA bytes. *)
Lemma DEFAULT_COLOR_is_RGBA : is_RGBA (rgba_value DEFAULT_COLOR).
Proof.
  exists 0%float, 132%float, 193%float, 255%float. split; [reflexivity |].
  repeat split.
  - apply (byte_is_byte 0). lia.
  - apply (byte_is_byte 132). lia.
  - apply (byte_is_byte 193). lia.
  - apply (byte_is_byte 255). lia.
Qed.

(** The stand-in colour conversion returns RGBA bytes or nothing. *)
Lemma namedColor_contract : colorAsRgba_contract Scenario.namedColor.
Proof.
  intros color. unfold Scenario.namedColor.
  destruct color as [| | b | x | s | l | o]; cbn; try discriminate.
  destruct (String.eqb s "red").
  - intros _. exists 255%float, 0%float, 0%float, 255%float.
    split; [reflexivity |].
    repeat split; first [apply (byte_is_byte 255) | apply (byte_is_byte 0)]; lia.
  - destruct (String.eqb s "black"); [| discriminate].
    intros _. exists 0%float, 0%float, 0%float, 255%float.
    split; [reflexivity |].
    repeat split; first [apply (byte_is_byte 255) | apply (byte_is_byte 0)]; lia.
Qed.

(** The default colour accessor, case by case. *)
Lemma getColor_eq (colorAsRgba : value → value) (record : gmap string value) :
  PropType.value (DefaultProps.getColor (defaultProps colorAsRgba)) (Obj record) =
    Normal (if truthy (record_colour record) &&
               truthy (colorAsRgba (record_colour record))
            then colorAsRgba (record_colour record)
            else rgba_value DEFAULT_COLOR).
Proof.
  unfold record_colour. cbn. unfold and_, or_.
  destruct (truthy (default Undefined (record !! "color"))) eqn:Hcolor; cbn.
  - destruct (truthy (colorAsRgba _)); reflexivity.
  - rewrite Hcolor. reflexivity.
Qed.

(** C6: the default colour accessor returns the constant [0,132,193,255] for a
    record without a colour and for a record whose colour converts to a falsy
    value, and otherwise the colour converted by colorAsRgba, which is four
    RGBA bytes in [0,255].  A record is without a colour when its colour
    field is missing or holds a falsy value. *)
Theorem default_colour_accessor
    (colorAsRgba : value → value) (record : gmap string value) :
  colorAsRgba_contract colorAsRgba →
  let getColor := PropType.value (DefaultProps.getColor (defaultProps colorAsRgba)) in
  let converted := colorAsRgba (record_colour record) in
  rgba_value DEFAULT_COLOR = Arr [Num 0; Num 132; Num 193; Num 255] ∧
  (record !! "color" = None → truthy (record_colour record) = false) ∧
  (truthy (record_colour record) = false ∨ truthy converted = false →
   getColor (Obj record) = Normal (rgba_value DEFAULT_COLOR)) ∧
  (truthy (record_colour record) = true ∧ truthy converted = true →
   getColor (Obj record) = Normal converted ∧ is_RGBA converted).
Proof.
  intros Hcontract. cbn zeta. split; [reflexivity |]. split; [| split].
  - intros Hnone. unfold record_colour. rewrite Hnone. reflexivity.
  - intros Hfalsy. rewrite getColor_eq.
    destruct Hfalsy as [H | H]; rewrite H; [reflexivity |].
    rewrite andb_false_r. reflexivity.
  - intros [Hcolor Hconv]. rewrite getColor_eq, Hcolor, Hconv.
    split; [reflexivity |]. apply Hcontract, Hconv.
Qed.

Lemma default_colour_accessor_witness :
  let record : gmap string value := {[ "color" := Str "red" ]} in
  let getColor := PropType.value (DefaultProps.getColor (defaultProps Scenario.namedColor)) in
  getColor (Obj record) = Normal (Arr [Num 255; Num 0; Num 0; Num 255]) ∧
  is_RGBA (Scenario.namedColor (record_colour record)) ∧
  getColor (Obj ∅) = Normal (rgba_value DEFAULT_COLOR) ∧
  getColor (Obj {[ "color" := Str "no such colour" ]}) = Normal (rgba_value DEFAULT_COLOR).
Proof.
  cbn zeta.
  pose proof (default_colour_accessor Scenario.namedColor {[ "color" := Str "red" ]}
                namedColor_contract) as (_ & _ & _ & Hred).
  pose proof (default_colour_accessor Scenario.namedColor ∅
                namedColor_contract) as (_ & _ & Hnone & _).
  pose proof (default_colour_accessor Scenario.namedColor
                {[ "color" := Str "no such colour" ]}
                namedColor_contract) as (_ & _ & Hbad & _).
  destruct Hred as [Hget Hrgba]; [split; reflexivity |].
  split; [exact Hget |]. split; [exact Hrgba |].
  split; [apply Hnone; left; reflexivity | apply Hbad; right; reflexivity].
Defined.

(** C7: a layer constructed without accessors has the defaults: source and
    target position are the origin [0, 0] for every record, the thickness is
    the record's count field, and the pickability is 1.0. *)
Theorem default_accessors
    (colorAsRgba : value → value) (p : UserProps.t)
    (record : gmap string value) (index : nat) :
  UserProps.getSourcePosition p = None →
  UserProps.getTargetPosition p = None →
  UserProps.getThickness p = None →
  UserProps.getPickable p = None →
  let props := constructor colorAsRgba p in
  Props.getSourcePosition props (Obj record) = Normal (Arr [Num 0; Num 0]) ∧
  Props.getTargetPosition props (Obj record) = Normal (Arr [Num 0; Num 0]) ∧
  Props.getThickness props (Obj record) =
    Normal (default Undefined (record !! "count")) ∧
  Props.getPickable props (Obj record) index = Normal (Num 1.0).
Proof.
  intros Hsource Htarget Hthickness Hpickable. cbn zeta.
  unfold constructor. cbn [Props.getSourcePosition Props.getTargetPosition
                            Props.getThickness Props.getPickable].
  rewrite Hsource, Htarget, Hthickness, Hpickable. repeat split.
Qed.

Lemma default_accessors_witness :
  let props := constructor Scenario.namedColor Scenario.userProps in
  let record : gmap string value :=
    {[ "origin" := Str "A"; "dest" := Str "B"; "count" := Num 10 ]} in
  Props.getSourcePosition props (Obj record) = Normal (Arr [Num 0; Num 0]) ∧
  Props.getTargetPosition props (Obj record) = Normal (Arr [Num 0; Num 0]) ∧
  Props.getThickness props (Obj record) = Normal (Num 10) ∧
  Props.getPickable props (Obj record) 0 = Normal (Num 1.0).
Proof.
  exact (default_accessors Scenario.namedColor Scenario.userProps
           {[ "origin" := Str "A"; "dest" := Str "B"; "count" := Num 10 ]} 0
           eq_refl eq_refl eq_refl eq_refl).
Defined.

(** ** Tooltips *)

Import App.

(** C9: no tooltip for an undefined picking info (a hover over empty space)
    and for an info whose type tag is neither LOCATION nor FLOW; for an info
    tagged "flow" a tooltip at left = x, top = y with the flow's origin id,
    destination id and count; for an info tagged "location" one with the
    location's name and its incoming, outgoing and internal totals. *)
Theorem tooltip_by_picking_type :
  getTooltipState Undefined = Normal None ∧
  (∀ info : gmap string value,
     info !! "type" ≠ Some (Str PickingType.LOCATION) →
     info !! "type" ≠ Some (Str PickingType.FLOW) →
     getTooltipState (Obj info) = Normal None) ∧
  (∀ (info origin dest : gmap string value),
     info !! "type" = Some (Str "flow") →
     info !! "origin" = Some (Obj origin) →
     info !! "dest" = Some (Obj dest) →
     getTooltipState (Obj info) =
       Normal (Some {|
         position := {| left := default Undefined (info !! "x");
                        top := default Undefined (info !! "y") |};
         content :=
           Fragment
             [ Element "div"
                 [ Expr (default Undefined (origin !! "id"));
                   Text " → ";
                   Expr (default Undefined (dest !! "id")) ];
               Element "div" [Expr (default Undefined (info !! "count"))] ]
       |})) ∧
  (∀ (info totals : gmap string value),
     info !! "type" = Some (Str "location") →
     info !! "totals" = Some (Obj totals) →
     getTooltipState (Obj info) =
       Normal (Some {|
         position := {| left := default Undefined (info !! "x");
                        top := default Undefined (info !! "y") |};
         content :=
           Fragment
             [ Element "div" [Expr (default Undefined (info !! "name"))];
               Element "div"
                 [ Text "Incoming trips: ";
                   Expr (default Undefined (totals !! "incomingCount")) ];
               Element "div"
                 [ Text "Outgoing trips: ";
                   Expr (default Undefined (totals !! "outgoingCount")) ];
               Element "div"
                 [ Text "Internal or round trips: ";
                   Expr (default Undefined (totals !! "internalCount")) ] ]
       |})).
Proof.
  split; [reflexivity |]. split; [| split].
  - intros info Hlocation Hflow. unfold getTooltipState. cbn.
    destruct (info !! "type") as [[| | b | x | s | l | o] |]; cbn; try reflexivity.
    destruct (String.eqb_spec s PickingType.LOCATION) as [-> | _];
      [now contradict Hlocation |].
    destruct (String.eqb_spec s PickingType.FLOW) as [-> | _];
      [now contradict Hflow | reflexivity].
  - intros info origin dest Htype Horigin Hdest.
    unfold getTooltipState. cbn. rewrite Htype, Horigin, Hdest. reflexivity.
  - intros info totals Htype Htotals.
    unfold getTooltipState. cbn. rewrite Htype, Htotals. reflexivity.
Qed.

Lemma tooltip_by_picking_type_witness :
  getTooltipState (Obj Scenario.flowInfo) =
    Normal (Some {|
      position := {| left := Num 3; top := Num 4 |};
      content :=
        Fragment
          [ Element "div" [Expr (Str "A"); Text " → "; Expr (Str "B")];
            Element "div" [Expr (Num 10)] ] |}) ∧
  getTooltipState (Obj Scenario.locationInfo) =
    Normal (Some {|
      position := {| left := Num 7; top := Num 9 |};
      content :=
        Fragment
          [ Element "div" [Expr (Str "A")];
            Element "div" [Text "Incoming trips: "; Expr (Num 0)];
            Element "div" [Text "Outgoing trips: "; Expr (Num 10)];
            Element "div" [Text "Internal or round trips: "; Expr (Num 0)] ] |}) ∧
  getTooltipState (Obj Scenario.otherInfo) = Normal None.
Proof.
  destruct tooltip_by_picking_type as (_ & Hother & Hflow & Hlocation).
  split; [| split].
  - exact (Hflow Scenario.flowInfo {[ "id" := Str "A" ]} {[ "id" := Str "B" ]}
             eq_refl eq_refl eq_refl).
  - exact (Hlocation Scenario.locationInfo
             {[ "incomingCount" := Num 0; "outgoingCount" := Num 10;
                "internalCount" := Num 0 ]} eq_refl eq_refl).
  - apply (Hother Scenario.otherInfo); vm_compute; discriminate.
Defined.

(** ** Drawing *)

(** Runs the sequencing of a method's statements and the reads of the layer
    object's fields. *)
Ltac run_method :=
  unfold mbind, mret, M_bind, M_ret, gets, modify, throw, getAttributeManager;
  cbn [fst snd Layer.props Layer.state Layer.attributeManager Layer.context
       Layer.with_props Layer.with_model Layer.with_attributeManager
       Layer.with_device Layer.with_lineWidth State.model
       Context.device Context.gl_lineWidth].

(** The uniforms that [draw] makes from the host's and the layer's props. *)
Definition sentUniforms (uniforms : gmap string uniform) (props : Props.t) :
    gmap string uniform :=
  <["gap" := UNumber 0.5]> (
  <["thicknessUnit" := UNumber (Props.thicknessUnit props * 2.0)]> (
  <["outlineColor" := UVector (map (fun x => x / 255)%float (Props.outlineColor props))]>
  uniforms)).

(** What [draw] does, by whether the layer has a model.  Without one the call
    throws at [setUniforms]; with one the uniforms are set on the model and
    the call throws at [draw()], which is called on what [setUniforms]
    returned, undefined. *)
Lemma draw_run (uniforms : gmap string uniform) (this : Layer.t) :
  draw uniforms this =
    match State.model (Layer.state this) with
    | Some model =>
        (Throw (TypeError "Cannot read properties of undefined or null: draw"),
         Layer.with_model
           (Some (Model.setUniforms (sentUniforms uniforms (Layer.props this)) model).2)
           (Layer.with_lineWidth 1 this))
    | None =>
        (Throw (TypeError "Cannot read properties of undefined: setUniforms"),
         Layer.with_lineWidth 1 this)
    end.
Proof.
  unfold draw. run_method. destruct (State.model (Layer.state this)); reflexivity.
Qed.

(** Without a model there is nothing to draw with: the call throws. *)
Lemma draw_without_model (uniforms : gmap string uniform) (this : Layer.t) :
  State.model (Layer.state this) = None →
  ∃ e, (draw uniforms this).1 = Throw e.
Proof.
  intros Hnone. rewrite draw_run, Hnone. eexists. reflexivity.
Qed.


Lemma drawnLayer_has_model :
  ∃ model, State.model (Layer.state Scenario.drawnLayer) = Some model.
Proof. eexists. reflexivity. Defined.


(** ** Updates *)

Section Updates.

Variables (vs fs : string).
Variable Layer_updateState : UpdateParameters.t → Layer.t → Layer.t.
Hypothesis base : base_frame Layer_updateState.

(** An update without an extension change is the base class's update and
    nothing else. *)
Lemma update_unflagged (params : UpdateParameters.t) (this : Layer.t) :
  ChangeFlags.extensionsChanged (UpdateParameters.changeFlags params) = false →
  update vs fs Layer_updateState params this =
    (Normal tt,
     Layer_updateState params (Layer.with_props (UpdateParameters.props params) this)).
Proof using Type.
  intros Hflag. unfold update, updateState. run_method. rewrite Hflag. reflexivity.
Qed.

(** An update with an extension change destroys the model the layer has, if
    it has one, and installs a new one built from the new props. *)
Lemma update_flagged (params : UpdateParameters.t) (this : Layer.t) :
  ChangeFlags.extensionsChanged (UpdateParameters.changeFlags params) = true →
  let device := Context.device (Layer.context this) in
  let after := (update vs fs Layer_updateState params this).2 in
  ∃ model,
    State.model (Layer.state after) = Some model ∧
    (_getModel vs fs (Layer.with_props (UpdateParameters.props params) this)).1 =
      Normal model ∧
    Context.device (Layer.context after) =
      Device.mk (S (Device.created device))
        (match State.model (Layer.state this) with
         | Some old => Model.handle old :: Device.destroyed device
         | None => Device.destroyed device
         end).
Proof using base.
  intros Hflag. cbn zeta. unfold update, updateState. run_method. rewrite Hflag.
  set (this0 := Layer.with_props (UpdateParameters.props params) this).
  destruct (base params this0) as (Hprops & Hstate & Hcontext).
  rewrite Hstate. subst this0. run_method.
  match goal with
  | |- context [destroy ?old ?l] =>
      set (destroyed := (destroy old l).2);
      assert (Hdestroy : destroy old l = (Normal tt, destroyed))
        by (unfold destroyed, destroy; destruct old; reflexivity);
      assert (Hdprops : Layer.props destroyed = UpdateParameters.props params)
        by (unfold destroyed, destroy; destruct old; cbn; rewrite Hprops; reflexivity);
      assert (Hddevice :
        Context.device (Layer.context destroyed) =
          Device.mk (Device.created (Context.device (Layer.context this)))
            (match old with
             | Some m => Model.handle m ::
                 Device.destroyed (Context.device (Layer.context this))
             | None => Device.destroyed (Context.device (Layer.context this))
             end))
        by (unfold destroyed, destroy; destruct old; cbn; rewrite Hcontext;
            cbn; destruct (Context.device (Layer.context this)); reflexivity)
  end.
  rewrite Hdestroy. clearbody destroyed.
  destruct (getModel_returns vs fs destroyed) as (model & Hrun & _ & _).
  rewrite Hrun. exists model.
  assert (Hsame :
    (_getModel vs fs (Layer.with_props (UpdateParameters.props params) this)).1
    = Normal model).
  { rewrite <- (getModel_depends vs fs destroyed); [rewrite Hrun; reflexivity | |].
    - rewrite Hdprops. reflexivity.
    - rewrite Hddevice. reflexivity. }
  run_method.
  destruct (Layer.attributeManager destroyed); run_method;
    (split; [reflexivity |]; split; [exact Hsame |]);
    rewrite Hddevice; reflexivity.
Qed.

End Updates.

Lemma updates_cons
    (vs fs : string) (Layer_updateState : UpdateParameters.t → Layer.t → Layer.t)
    (params : UpdateParameters.t) (ps : list UpdateParameters.t) (this : Layer.t) :
  updates vs fs Layer_updateState (params :: ps) this =
    updates vs fs Layer_updateState ps
      (update vs fs Layer_updateState params this).2.
Proof. reflexivity. Qed.

(** The host's own [updateState] keeps to the attribute manager. *)
Lemma hostUpdateState_frame : base_frame Scenario.hostUpdateState.
Proof.
  intros params this. unfold Scenario.hostUpdateState.
  destruct (ChangeFlags.dataChanged (UpdateParameters.changeFlags params));
    repeat split.
Qed.

(** C2, as the code has it: what makes an update rebuild the template is the
    change flag extensionsChanged, not a change of drawOutline.  An update
    with the flag set destroys the old model and installs a new one, built
    from the new props, under a handle that no earlier model had; an update
    without the flag leaves the model and the device as they were, whatever
    happened to drawOutline, and only the base class's update runs.  Over a
    sequence of updates the device has created one model for each update
    with the flag set. *)
Theorem template_rebuilt_on_extension_change
    (vs fs : string) (Layer_updateState : UpdateParameters.t → Layer.t → Layer.t) :
  base_frame Layer_updateState →
  (∀ (params : UpdateParameters.t) (this : Layer.t),
     let device := Context.device (Layer.context this) in
     let after := (update vs fs Layer_updateState params this).2 in
     if ChangeFlags.extensionsChanged (UpdateParameters.changeFlags params)
     then
       ∃ model,
         State.model (Layer.state after) = Some model ∧
         (_getModel vs fs (Layer.with_props (UpdateParameters.props params) this)).1
           = Normal model ∧
         Model.handle model = Device.created device ∧
         Device.created (Context.device (Layer.context after))
           = S (Device.created device) ∧
         Device.destroyed (Context.device (Layer.context after))
           = match State.model (Layer.state this) with
             | Some old => Model.handle old :: Device.destroyed device
             | None => Device.destroyed device
             end
     else
       State.model (Layer.state after) = State.model (Layer.state this) ∧
       Context.device (Layer.context after) = device ∧
       update vs fs Layer_updateState params this =
         (Normal tt,
          Layer_updateState params
            (Layer.with_props (UpdateParameters.props params) this))) ∧
  (∀ (ps : list UpdateParameters.t) (this : Layer.t),
     Device.created
       (Context.device (Layer.context (updates vs fs Layer_updateState ps this)))
     = Device.created (Context.device (Layer.context this)) + extensionChanges ps).
Proof.
  intros Hbase.
  assert (Hstep : ∀ (params : UpdateParameters.t) (this : Layer.t),
     let device := Context.device (Layer.context this) in
     let after := (update vs fs Layer_updateState params this).2 in
     if ChangeFlags.extensionsChanged (UpdateParameters.changeFlags params)
     then
       ∃ model,
         State.model (Layer.state after) = Some model ∧
         (_getModel vs fs (Layer.with_props (UpdateParameters.props params) this)).1
           = Normal model ∧
         Model.handle model = Device.created device ∧
         Device.created (Context.device (Layer.context after))
           = S (Device.created device) ∧
         Device.destroyed (Context.device (Layer.context after))
           = match State.model (Layer.state this) with
             | Some old => Model.handle old :: Device.destroyed device
             | None => Device.destroyed device
             end
     else
       State.model (Layer.state after) = State.model (Layer.state this) ∧
       Context.device (Layer.context after) = device ∧
       update vs fs Layer_updateState params this =
         (Normal tt,
          Layer_updateState params
            (Layer.with_props (UpdateParameters.props params) this))).
  { intros params this. cbn zeta.
    destruct (ChangeFlags.extensionsChanged (UpdateParameters.changeFlags params))
      eqn:Hflag.
    - destruct (update_flagged vs fs Layer_updateState Hbase params this Hflag)
        as (model & Hmodel & Hbuilt & Hdevice).
      exists model. split; [exact Hmodel |]. split; [exact Hbuilt |]. split.
      + destruct (getModel_returns vs fs
                    (Layer.with_props (UpdateParameters.props params) this))
          as (model' & Hrun & Hhandle & _).
        rewrite Hrun in Hbuilt. cbn in Hbuilt. injection Hbuilt as <-.
        exact Hhandle.
      + rewrite Hdevice. split; reflexivity.
    - rewrite (update_unflagged vs fs Layer_updateState params this Hflag).
      destruct (Hbase params (Layer.with_props (UpdateParameters.props params) this))
        as (_ & Hstate & Hcontext).
      cbn [snd]. rewrite Hstate, Hcontext. repeat split. }
  split; [exact Hstep |].
  intros ps. induction ps as [| params ps IH]; intros this.
  - unfold extensionChanges. cbn. lia.
  - rewrite updates_cons, IH. specialize (Hstep params this). cbn zeta in Hstep.
    unfold extensionChanges. cbn [List.filter].
    destruct (ChangeFlags.extensionsChanged (UpdateParameters.changeFlags params)).
    + destruct Hstep as (model & _ & _ & _ & Hcreated & _). rewrite Hcreated.
      cbn [length]. lia.
    + destruct Hstep as (_ & Hdevice & _). rewrite Hdevice. reflexivity.
Qed.

Lemma template_rebuilt_on_extension_change_witness :
  Device.created
    (Context.device (Layer.context
       (updates "vs" "fs" Scenario.hostUpdateState
          [Scenario.firstUpdate; Scenario.outlineOffUpdate; Scenario.extensionsUpdate]
          Scenario.layer))) = 2 ∧
  State.model (Layer.state
    (update "vs" "fs" Scenario.hostUpdateState Scenario.outlineOffUpdate
       Scenario.drawnLayer).2) = State.model (Layer.state Scenario.drawnLayer) ∧
  Device.destroyed (Context.device (Layer.context
    (update "vs" "fs" Scenario.hostUpdateState Scenario.extensionsUpdate
       Scenario.drawnLayer).2)) = [0].
Proof.
  destruct (template_rebuilt_on_extension_change "vs" "fs" Scenario.hostUpdateState
              hostUpdateState_frame) as [Hstep Hcount].
  split; [| split].
  - exact (Hcount [Scenario.firstUpdate; Scenario.outlineOffUpdate;
                   Scenario.extensionsUpdate] Scenario.layer).
  - exact (proj1 (Hstep Scenario.outlineOffUpdate Scenario.drawnLayer)).
  - destruct (Hstep Scenario.extensionsUpdate Scenario.drawnLayer)
      as (model & _ & _ & _ & _ & Hdestroyed).
    exact Hdestroyed.
Defined.

(** C2 as stated fails: an update that keeps drawOutline (and every other
    prop) but reports changed extensions replaces the template: the model
    with handle 0 is destroyed and a model with handle 1 takes its place. *)
Lemma rebuild_without_draw_mode_change :
  Props.drawOutline <$> UpdateParameters.oldProps Scenario.extensionsUpdate
    = Some (Props.drawOutline (UpdateParameters.props Scenario.extensionsUpdate)) ∧
  Props.drawOutline (Layer.props Scenario.drawnLayer)
    = Props.drawOutline (UpdateParameters.props Scenario.extensionsUpdate) ∧
  Model.handle <$> State.model (Layer.state Scenario.drawnLayer) = Some 0 ∧
  Model.handle <$> State.model (Layer.state
    (update "vs" "fs" Scenario.hostUpdateState Scenario.extensionsUpdate
       Scenario.drawnLayer).2) = Some 1 ∧
  State.model (Layer.state
    (update "vs" "fs" Scenario.hostUpdateState Scenario.extensionsUpdate
       Scenario.drawnLayer).2) ≠ State.model (Layer.state Scenario.drawnLayer) ∧
  Device.destroyed (Context.device (Layer.context
    (update "vs" "fs" Scenario.hostUpdateState Scenario.extensionsUpdate
       Scenario.drawnLayer).2)) = [0].
Proof.
  repeat split.
  intros H. apply (f_equal (fmap Model.handle)) in H. vm_compute in H.
  discriminate H.
Qed.

(** The other side of the same test: switching the outline off without an
    extension change keeps the 18-vertex template. *)
Lemma outline_switch_keeps_template :
  Props.drawOutline (UpdateParameters.props Scenario.outlineOffUpdate) = false ∧
  Geometry.vertexCount <$> (Model.geometry <$> State.model (Layer.state
    (update "vs" "fs" Scenario.hostUpdateState Scenario.outlineOffUpdate
       Scenario.drawnLayer).2)) = Some 18.
Proof. split; reflexivity. Qed.

(** * Further properties of the layer *)

Import Lifecycle.

#[local] Set Warnings "-clear-no-such-hyp".

(** ** The shape of the template *)

(** X1: the outline shell keeps the mesh welded: two template vertices with
    the same position triple (the vertices that the source labels with the
    same number) get the same pixel-offset triple, whatever the outer and
    inner thickness. *)
Theorem welded_vertices_share_offsets (tout tin : number) (i j : nat) :
  i < 9 → j < 9 →
  vertex i POSITIONS = vertex j POSITIONS →
  vertex i (getOutlinePixelOffsets tout tin) =
    vertex j (getOutlinePixelOffsets tout tin).
Proof.
  intros Hi Hj.
  do 9 (destruct i as [| i];
    [ do 9 (destruct j as [| j];
        [ intros H;
          first [ reflexivity
                | exfalso; apply (f_equal (map Prim2SF)) in H;
                  vm_compute in H; discriminate H ] | ]);
      exfalso; lia | ]).
  exfalso; lia.
Qed.

Lemma welded_vertices_share_offsets_witness :
  vertex 2 (getOutlinePixelOffsets 1.5 1) = vertex 4 (getOutlinePixelOffsets 1.5 1).
Proof.
  apply (welded_vertices_share_offsets 1.5 1 2 4); [lia | lia | reflexivity].
Defined.

(** X2: with outlines off the template is the fill shape alone: the positions
    array is POSITIONS, stored without any rounding, and every pixel offset
    and mix flag is zero, whatever the outline thickness prop holds. *)
Theorem template_without_outline (vs fs : string) (this : Layer.t) :
  Props.drawOutline (Layer.props this) = false →
  ∃ model this',
    _getModel vs fs this = (Normal model, this') ∧
    Attribute.value (Geometry.positions (Model.geometry model)) = POSITIONS ∧
    Attribute.value (Geometry.normals (Model.geometry model)) = replicate 27 0%float.
Proof.
  intros Hoff. destruct (getModel_returns vs fs this) as (model & Hrun & _ & Hgeo).
  exists model. eexists. split; [exact Hrun |]. rewrite Hgeo, Hoff.
  cbn [Geometry.positions Geometry.normals Attribute.value].
  rewrite Float32Array_POSITIONS, Float32Array_ZEROES. split; reflexivity.
Qed.

Lemma template_without_outline_witness :
  ∃ model this',
    _getModel "vs" "fs" Examples.plainLayer = (Normal model, this') ∧
    Attribute.value (Geometry.positions (Model.geometry model)) = POSITIONS ∧
    Attribute.value (Geometry.normals (Model.geometry model)) = replicate 27 0%float.
Proof.
  apply (template_without_outline "vs" "fs" Examples.plainLayer). reflexivity.
Defined.

(** ** Updates: errors and attributes *)

(** What an update with an extension change does, step by step. *)
Lemma update_flagged_run
    (vs fs : string) (Layer_updateState : UpdateParameters.t → Layer.t → Layer.t)
    (params : UpdateParameters.t) (this : Layer.t) :
  ChangeFlags.extensionsChanged (UpdateParameters.changeFlags params) = true →
  let based :=
    Layer_updateState params (Layer.with_props (UpdateParameters.props params) this) in
  let cleared := (destroy (State.model (Layer.state based)) based).2 in
  let built := _getModel vs fs cleared in
  ∃ model,
    built.1 = Normal model ∧
    update vs fs Layer_updateState params this =
      match Layer.attributeManager based with
      | Some am =>
          (Normal tt,
           Layer.with_attributeManager (Some (AttributeManager.invalidateAll am))
             (Layer.with_model (Some model) built.2))
      | None =>
          (Throw (TypeError "Cannot read properties of null: invalidateAll"),
           Layer.with_model (Some model) built.2)
      end.
Proof.
  intros Hflag. cbn zeta. unfold update, updateState. run_method. rewrite Hflag.
  set (based := Layer_updateState params _).
  assert (Hdestroy : destroy (State.model (Layer.state based)) based =
                     (Normal tt, (destroy (State.model (Layer.state based)) based).2))
    by (unfold destroy; destruct (State.model (Layer.state based)); reflexivity).
  rewrite Hdestroy. cbn [snd].
  set (cleared := (destroy (State.model (Layer.state based)) based).2).
  assert (Hmanager : Layer.attributeManager cleared = Layer.attributeManager based)
    by (unfold cleared, destroy; destruct (State.model (Layer.state based)); reflexivity).
  destruct (getModel_returns vs fs cleared) as (model & Hrun & _ & _).
  exists model. rewrite Hrun. cbn [fst snd]. split; [reflexivity |].
  run_method. rewrite Hmanager.
  destruct (Layer.attributeManager based); reflexivity.
Qed.

(** X3: an update with an extension change on a layer without an attribute
    manager throws a TypeError, but only after the swap: the old model is
    destroyed and the new one is installed when the exception leaves. *)
Theorem update_throws_after_the_swap
    (vs fs : string) (Layer_updateState : UpdateParameters.t → Layer.t → Layer.t)
    (params : UpdateParameters.t) (this : Layer.t) :
  base_frame Layer_updateState →
  ChangeFlags.extensionsChanged (UpdateParameters.changeFlags params) = true →
  Layer.attributeManager
    (Layer_updateState params (Layer.with_props (UpdateParameters.props params) this))
    = None →
  ∃ msg model after,
    update vs fs Layer_updateState params this = (Throw (TypeError msg), after) ∧
    State.model (Layer.state after) = Some model ∧
    Model.handle model = Device.created (Context.device (Layer.context this)) ∧
    Device.destroyed (Context.device (Layer.context after)) =
      live this ++ Device.destroyed (Context.device (Layer.context this)).
Proof.
  intros Hbase Hflag Hnone.
  destruct (update_flagged_run vs fs Layer_updateState params this Hflag)
    as (model & _ & Hrun).
  rewrite Hnone in Hrun.
  destruct (update_flagged vs fs Layer_updateState Hbase params this Hflag)
    as (model' & Hmodel & Hbuilt & Hdevice).
  eexists. exists model'. eexists. split; [exact Hrun |].
  rewrite Hrun in Hmodel, Hdevice. cbn [snd] in Hmodel, Hdevice.
  split; [exact Hmodel |]. split.
  - destruct (getModel_returns vs fs
                (Layer.with_props (UpdateParameters.props params) this))
      as (m & Hm & Hhandle & _).
    rewrite Hm in Hbuilt. cbn in Hbuilt. injection Hbuilt as <-. exact Hhandle.
  - rewrite Hdevice. unfold live. cbn [Device.destroyed].
    destruct (State.model (Layer.state this)); reflexivity.
Qed.

Lemma update_throws_after_the_swap_witness :
  ∃ msg model after,
    update "vs" "fs" Scenario.hostUpdateState Scenario.firstUpdate
      Examples.unmanagedLayer = (Throw (TypeError msg), after) ∧
    State.model (Layer.state after) = Some model ∧
    Model.handle model = 0 ∧
    Device.destroyed (Context.device (Layer.context after)) = [].
Proof.
  exact (update_throws_after_the_swap "vs" "fs" Scenario.hostUpdateState
           Scenario.firstUpdate Examples.unmanagedLayer
           hostUpdateState_frame eq_refl eq_refl).
Defined.

(** X4: an update with an extension change on a layer with an attribute
    manager returns normally and invalidates every attribute: the manager
    keeps its attribute names, their settings and instancing, and each one
    is marked as needing an update. *)
Theorem update_invalidates_all_attributes
    (vs fs : string) (Layer_updateState : UpdateParameters.t → Layer.t → Layer.t)
    (params : UpdateParameters.t) (this : Layer.t) (am : AttributeManager.t) :
  ChangeFlags.extensionsChanged (UpdateParameters.changeFlags params) = true →
  Layer.attributeManager
    (Layer_updateState params (Layer.with_props (UpdateParameters.props params) this))
    = Some am →
  ∃ after am',
    update vs fs Layer_updateState params this = (Normal tt, after) ∧
    Layer.attributeManager after = Some am' ∧
    dom am' = dom am ∧
    ∀ name a, am !! name = Some a →
      am' !! name =
        Some (AttributeManager.mkAttribute
                (AttributeManager.attr_settings a) (AttributeManager.instanced a) true).
Proof.
  intros Hflag Hsome.
  destruct (update_flagged_run vs fs Layer_updateState params this Hflag)
    as (model & _ & Hrun).
  rewrite Hsome in Hrun.
  eexists. exists (AttributeManager.invalidateAll am).
  split; [exact Hrun |]. split; [reflexivity |]. split.
  - unfold AttributeManager.invalidateAll. apply dom_fmap_L.
  - intros name a Hname. unfold AttributeManager.invalidateAll.
    rewrite lookup_fmap, Hname. reflexivity.
Qed.

Lemma update_invalidates_all_attributes_witness :
  ∃ after am',
    update "vs" "fs" Scenario.hostUpdateState Scenario.extensionsUpdate
      Scenario.drawnLayer = (Normal tt, after) ∧
    Layer.attributeManager after = Some am' ∧
    AttributeManager.needsUpdate <$> am' !! "instanceColors" = Some true ∧
    AttributeManager.size <$>
      (AttributeManager.attr_settings <$> am' !! "instanceColors") = Some 4.
Proof.
  destruct (Layer.attributeManager
              (Scenario.hostUpdateState Scenario.extensionsUpdate
                 (Layer.with_props (UpdateParameters.props Scenario.extensionsUpdate)
                    Scenario.drawnLayer))) as [am |] eqn:Ham; [| discriminate Ham].
  destruct (update_invalidates_all_attributes "vs" "fs" Scenario.hostUpdateState
              Scenario.extensionsUpdate Scenario.drawnLayer am eq_refl Ham)
    as (after & am' & Hrun & Hmanager & _ & Hkept).
  exists after, am'. split; [exact Hrun |]. split; [exact Hmanager |].
  assert (Hcolors : am !! "instanceColors" =
            Some (AttributeManager.mkAttribute
                    (AttributeManager.mkSettings "getColor" 4 false (Some "unorm8"))
                    true true))
    by (vm_compute in Ham; injection Ham as <-; reflexivity).
  rewrite (Hkept _ _ Hcolors). split; reflexivity.
Defined.

(** ** Drawing: what it forwards and what it leaves alone *)

(** X5: [draw] hands the model every uniform of the host under another name
    than gap, thicknessUnit and outlineColor as it is, and the model keeps
    what it had under a name the host did not pass.  (The call then throws,
    as every call of [draw] does.) *)
Theorem draw_forwards_host_uniforms
    (uniforms : gmap string uniform) (this : Layer.t) (model : Model.t)
    (name : string) :
  State.model (Layer.state this) = Some model →
  name ≠ "gap" → name ≠ "thicknessUnit" → name ≠ "outlineColor" →
  ∃ model' this' msg,
    draw uniforms this = (Throw (TypeError msg), this') ∧
    State.model (Layer.state this') = Some model' ∧
    Model.uniforms model' !! name =
      match uniforms !! name with
      | Some u => Some u
      | None => Model.uniforms model !! name
      end.
Proof.
  intros Hmodel Hgap Hunit Hcolor. rewrite draw_run, Hmodel.
  eexists. eexists. eexists. split; [reflexivity |]. split; [reflexivity |].
  cbn [Model.uniforms Model.setUniforms snd]. unfold sentUniforms.
  rewrite lookup_union, !lookup_insert_ne by congruence.
  destruct (uniforms !! name), (Model.uniforms model !! name); reflexivity.
Qed.

Lemma draw_forwards_host_uniforms_witness :
  ∃ model' this' msg,
    draw Examples.hostUniforms Scenario.drawnLayer = (Throw (TypeError msg), this') ∧
    State.model (Layer.state this') = Some model' ∧
    Model.uniforms model' !! "opacity" = Some (UNumber 1).
Proof.
  destruct drawnLayer_has_model as [model Hmodel].
  destruct (draw_forwards_host_uniforms Examples.hostUniforms Scenario.drawnLayer
              model "opacity" Hmodel)
    as (model' & this' & msg & Hrun & Hstate & Hname);
    [discriminate | discriminate | discriminate |].
  exists model', this', msg.
  split; [exact Hrun |]. split; [exact Hstate | exact Hname].
Defined.

(** X6: [draw] never returns normally and never issues a draw call.  Without
    a model it throws a TypeError at setUniforms; with one it sets the
    uniforms and throws a TypeError at draw(), called on the undefined that
    setUniforms returned.  Either way it sets the line width to 1 and leaves
    the props, the attribute manager and the device alone, and the model
    keeps its handle, its geometry and its record of draw calls. *)
Theorem draw_always_throws_and_keeps_the_model
    (uniforms : gmap string uniform) (this : Layer.t) :
  let after := (draw uniforms this).2 in
  (∃ msg, (draw uniforms this).1 = Throw (TypeError msg)) ∧
  Context.gl_lineWidth (Layer.context after) = 1%float ∧
  Layer.props after = Layer.props this ∧
  Layer.attributeManager after = Layer.attributeManager this ∧
  Context.device (Layer.context after) = Context.device (Layer.context this) ∧
  Model.handle <$> State.model (Layer.state after) =
    Model.handle <$> State.model (Layer.state this) ∧
  Model.geometry <$> State.model (Layer.state after) =
    Model.geometry <$> State.model (Layer.state this) ∧
  Model.drawCalls <$> State.model (Layer.state after) =
    Model.drawCalls <$> State.model (Layer.state this).
Proof.
  cbn zeta. rewrite draw_run.
  destruct (State.model (Layer.state this)) as [model |] eqn:Hmodel.
  - split; [eexists; reflexivity |]. repeat split.
  - split; [eexists; reflexivity |]. cbn. rewrite Hmodel. repeat split.
Qed.

(** ** The lifecycle: models are accounted for *)

Lemma accounted_same (this that : Layer.t) :
  live that = live this →
  Context.device (Layer.context that) = Context.device (Layer.context this) →
  accounted this → accounted that.
Proof. unfold accounted. intros -> ->. trivial. Qed.

Lemma live_draw (uniforms : gmap string uniform) (this : Layer.t) :
  live (draw uniforms this).2 = live this.
Proof.
  rewrite draw_run. unfold live.
  destruct (State.model (Layer.state this)) eqn:Hmodel; cbn; [| rewrite Hmodel];
    reflexivity.
Qed.

Lemma device_draw (uniforms : gmap string uniform) (this : Layer.t) :
  Context.device (Layer.context (draw uniforms this).2) =
    Context.device (Layer.context this).
Proof.
  rewrite draw_run. destruct (State.model (Layer.state this)); reflexivity.
Qed.

Lemma initializeState_run (this : Layer.t) :
  ∃ after,
    initializeState this = (Normal tt, after) ∧
    Layer.props after = Layer.props this ∧
    Layer.state after = Layer.state this ∧
    Layer.context after = Layer.context this.
Proof.
  unfold initializeState, getAttributeManager. run_method.
  destruct (Layer.attributeManager this); eexists;
    (split; [reflexivity |]); repeat split.
Qed.

Section Accounting.

Variables (vs fs : string).
Variable Layer_updateState : UpdateParameters.t → Layer.t → Layer.t.
Hypothesis base : base_frame Layer_updateState.

(** The handles in use and the device after one call. *)
Lemma perform_live (c : call) (this : Layer.t) :
  let device := Context.device (Layer.context this) in
  let after := (perform vs fs Layer_updateState c this).2 in
  if rebuilds c then
    live after = [Device.created device] ∧
    Context.device (Layer.context after) =
      Device.mk (S (Device.created device)) (live this ++ Device.destroyed device)
  else
    live after = live this ∧ Context.device (Layer.context after) = device.
Proof using base.
  cbn zeta. destruct c as [| params | uniforms]; cbn [rebuilds perform].
  - destruct (initializeState_run this) as (after & -> & _ & Hstate & Hcontext).
    cbn [snd]. unfold live. rewrite Hstate, Hcontext. split; reflexivity.
  - destruct (ChangeFlags.extensionsChanged (UpdateParameters.changeFlags params))
      eqn:Hflag.
    + destruct (update_flagged vs fs Layer_updateState base params this Hflag)
        as (model & Hmodel & Hbuilt & Hdevice).
      destruct (getModel_returns vs fs
                  (Layer.with_props (UpdateParameters.props params) this))
        as (m & Hm & Hhandle & _).
      rewrite Hm in Hbuilt. cbn in Hbuilt. injection Hbuilt as <-.
      split.
      * unfold live at 1. rewrite Hmodel, Hhandle. reflexivity.
      * rewrite Hdevice. unfold live.
        destruct (State.model (Layer.state this)); reflexivity.
    + rewrite (update_unflagged vs fs Layer_updateState params this Hflag).
      destruct (base params (Layer.with_props (UpdateParameters.props params) this))
        as (_ & Hstate & Hcontext).
      cbn [snd]. unfold live. rewrite Hstate, Hcontext. split; reflexivity.
  - split; [apply live_draw | apply device_draw].
Qed.

Lemma perform_accounted (c : call) (this : Layer.t) :
  accounted this → accounted (perform vs fs Layer_updateState c this).2.
Proof using base.
  intros Hthis. pose proof (perform_live c this) as Hstep. cbn zeta in Hstep.
  destruct (rebuilds c).
  - destruct Hstep as [Hlive Hdevice].
    destruct Hthis as (Hnodup & Hbound & Hlength).
    unfold accounted. rewrite Hlive, Hdevice. cbn [Device.destroyed Device.created app].
    split; [| split].
    + apply NoDup_cons. split; [| exact Hnodup].
      intros Hin. apply Hbound in Hin. lia.
    + intros h Hin. apply elem_of_cons in Hin as [-> | Hin]; [lia |].
      apply Hbound in Hin. lia.
    + cbn [length]. rewrite Hlength. reflexivity.
  - destruct Hstep as [Hlive Hdevice]. exact (accounted_same _ _ Hlive Hdevice Hthis).
Qed.

Lemma run_accounted (cs : list call) (this : Layer.t) :
  accounted this → accounted (run vs fs Layer_updateState cs this).
Proof using base.
  revert this. induction cs as [| c cs IH]; intros this Hthis; [exact Hthis |].
  apply IH, perform_accounted, Hthis.
Qed.

Lemma run_has_model (cs : list call) (this : Layer.t) :
  live (run vs fs Layer_updateState cs this) = [] ↔
  live this = [] ∧ existsb rebuilds cs = false.
Proof using base.
  revert this. induction cs as [| c cs IH]; intros this.
  - cbn. split; [intros H; split; [exact H | reflexivity] | intros [H _]; exact H].
  - change (run vs fs Layer_updateState (c :: cs) this)
      with (run vs fs Layer_updateState cs (perform vs fs Layer_updateState c this).2).
    rewrite IH. pose proof (perform_live c this) as Hstep. cbn zeta in Hstep.
    cbn [existsb]. destruct (rebuilds c).
    + destruct Hstep as [Hlive _]. rewrite Hlive. cbn [orb].
      split; [intros [H _]; discriminate H | intros [_ H]; discriminate H].
    + destruct Hstep as [Hlive _]. rewrite Hlive. cbn [orb]. reflexivity.
Qed.

End Accounting.

Lemma fresh_layer_accounted : accounted Scenario.layer.
Proof.
  unfold accounted. cbn. split; [apply NoDup_nil_2 |].
  split; [| reflexivity]. intros h Hin. inversion Hin.
Qed.

(** X7: over every sequence of initialise, update and draw calls the models
    stay accounted for: each model ever created on the layer's device is
    either the one the layer holds or destroyed, the one it holds is not
    destroyed, and none is destroyed twice. *)
Theorem models_stay_accounted_for
    (vs fs : string) (Layer_updateState : UpdateParameters.t → Layer.t → Layer.t)
    (cs : list call) (this : Layer.t) :
  base_frame Layer_updateState →
  accounted this →
  accounted (run vs fs Layer_updateState cs this).
Proof.
  intros Hbase. apply run_accounted, Hbase.
Qed.

Lemma models_stay_accounted_for_witness :
  accounted
    (run "vs" "fs" Scenario.hostUpdateState
       [ Initialize; Update Scenario.firstUpdate; Draw ∅;
         Update Scenario.outlineOffUpdate; Update Scenario.extensionsUpdate;
         Draw Examples.hostUniforms ]
       Scenario.layer).
Proof.
  apply (models_stay_accounted_for "vs" "fs" Scenario.hostUpdateState _
           Scenario.layer hostUpdateState_frame fresh_layer_accounted).
Defined.

(** X8: on a layer that starts without a model, the layer holds a model
    after a sequence of lifecycle calls exactly when one of the updates in
    the sequence reported changed extensions: no other call builds the
    model, and none drops it. *)
Theorem model_exists_once_an_update_built_it
    (vs fs : string) (Layer_updateState : UpdateParameters.t → Layer.t → Layer.t)
    (cs : list call) (this : Layer.t) :
  base_frame Layer_updateState →
  State.model (Layer.state this) = None →
  is_Some (State.model (Layer.state (run vs fs Layer_updateState cs this))) ↔
  existsb rebuilds cs = true.
Proof.
  intros Hbase Hnone.
  pose proof (run_has_model vs fs Layer_updateState Hbase cs this) as Hlive.
  assert (Hstart : live this = []) by (unfold live; rewrite Hnone; reflexivity).
  unfold live in Hlive at 1.
  destruct (State.model (Layer.state (run vs fs Layer_updateState cs this)))
    as [model |].
  - split; [intros _ | intros _; eexists; reflexivity].
    destruct (existsb rebuilds cs); [reflexivity |].
    assert (Hno : [Model.handle model] = [])
      by (apply Hlive; split; [exact Hstart | reflexivity]).
    discriminate Hno.
  - split; [intros [m Hm]; discriminate Hm |]. intros Hsome.
    destruct Hlive as [Hlive _]. destruct (Hlive eq_refl) as [_ Hnot].
    rewrite Hsome in Hnot. discriminate Hnot.
Qed.

Lemma model_exists_once_an_update_built_it_witness :
  ¬ is_Some (State.model (Layer.state
      (run "vs" "fs" Scenario.hostUpdateState
         [Initialize; Update Scenario.outlineOffUpdate; Draw ∅] Scenario.layer))) ∧
  is_Some (State.model (Layer.state
      (run "vs" "fs" Scenario.hostUpdateState
         [Initialize; Update Scenario.firstUpdate; Draw ∅] Scenario.layer))).
Proof.
  split.
  - intros Hsome.
    apply (model_exists_once_an_update_built_it "vs" "fs"
             Scenario.hostUpdateState
             [Initialize; Update Scenario.outlineOffUpdate; Draw ∅]
             Scenario.layer hostUpdateState_frame eq_refl) in Hsome.
    discriminate Hsome.
  - apply (model_exists_once_an_update_built_it "vs" "fs"
             Scenario.hostUpdateState
             [Initialize; Update Scenario.firstUpdate; Draw ∅]
             Scenario.layer hostUpdateState_frame eq_refl).
    reflexivity.
Defined.

(** X9: a rebuild forgets the uniforms.  After an update with an extension
    change, whether it returned or threw for want of an attribute manager,
    the next draw sets the new model's uniforms to the host's with gap,
    thicknessUnit and outlineColor of the new props put over them and
    nothing else: nothing of what the old model had been given is left.
    (That draw throws as every draw does, and the new model has no draw
    call.) *)
Theorem first_draw_after_a_rebuild
    (vs fs : string) (Layer_updateState : UpdateParameters.t → Layer.t → Layer.t)
    (params : UpdateParameters.t) (uniforms : gmap string uniform) (this : Layer.t) :
  base_frame Layer_updateState →
  ChangeFlags.extensionsChanged (UpdateParameters.changeFlags params) = true →
  let props := UpdateParameters.props params in
  let sent :=
    <["gap" := UNumber 0.5]> (
    <["thicknessUnit" := UNumber (Props.thicknessUnit props * 2.0)]> (
    <["outlineColor" := UVector (map (fun x => x / 255)%float (Props.outlineColor props))]>
    uniforms)) in
  ∃ model this' msg,
    draw uniforms (update vs fs Layer_updateState params this).2
      = (Throw (TypeError msg), this') ∧
    State.model (Layer.state this') = Some model ∧
    Model.uniforms model = sent ∧
    Model.drawCalls model = [].
Proof.
  intros Hbase Hflag. cbn zeta.
  destruct (update_flagged_run vs fs Layer_updateState params this Hflag)
    as (model & Hbuilt & Hrun).
  set (based := Layer_updateState params
                  (Layer.with_props (UpdateParameters.props params) this)) in *.
  set (cleared := (destroy (State.model (Layer.state based)) based).2) in *.
  destruct (getModel_returns vs fs cleared) as (m & Hm & _ & _).
  rewrite Hm in Hbuilt, Hrun. cbn [fst snd] in Hbuilt, Hrun.
  injection Hbuilt as <-.
  assert (Hprops : Layer.props cleared = UpdateParameters.props params).
  { destruct (Hbase params (Layer.with_props (UpdateParameters.props params) this))
      as (Hp & _ & _).
    unfold cleared, destroy. fold based in Hp.
    destruct (State.model (Layer.state based)); cbn; rewrite Hp; reflexivity. }
  assert (Hfresh : Model.uniforms m = ∅ ∧ Model.drawCalls m = []).
  { unfold _getModel in Hm.
    destruct (Props.drawOutline (Layer.props cleared)); cbn in Hm;
      injection Hm as <-; split; reflexivity. }
  destruct Hfresh as [Huniforms Hcalls].
  rewrite draw_run, Hrun.
  destruct (Layer.attributeManager based); cbn;
    rewrite Hprops; eexists; eexists; eexists;
    (split; [reflexivity |]); (split; [reflexivity |]);
    cbn [Model.uniforms Model.drawCalls Model.setUniforms snd];
    rewrite Huniforms, Hcalls, (right_id_L ∅ (∪)); split; reflexivity.
Qed.

Lemma first_draw_after_a_rebuild_witness :
  ∃ model this' msg,
    draw Examples.hostUniforms
      (update "vs" "fs" Scenario.hostUpdateState Scenario.firstUpdate
         Examples.unmanagedLayer).2 = (Throw (TypeError msg), this') ∧
    State.model (Layer.state this') = Some model ∧
    Model.uniforms model !! "gap" = Some (UNumber 0.5) ∧
    Model.uniforms model !! "thicknessUnit" = Some (UNumber 24) ∧
    Model.uniforms model !! "opacity" = Some (UNumber 1) ∧
    Model.drawCalls model = [].
Proof.
  destruct (first_draw_after_a_rebuild "vs" "fs" Scenario.hostUpdateState
              Scenario.firstUpdate Examples.hostUniforms Examples.unmanagedLayer
              hostUpdateState_frame eq_refl)
    as (model & this' & msg & Hrun & Hstate & Huniforms & Hcalls).
  exists model, this', msg. split; [exact Hrun |]. split; [exact Hstate |].
  rewrite Huniforms, Hcalls. repeat split.
Defined.

(** ** Initialisation *)

(** X10: [initializeState] never throws and touches nothing but the attribute
    manager.  Without a manager it does nothing; with one it registers the
    six instanced attributes, each with its accessor, size and type (3
    float64 for each position, 1 for thickness, 2 for the endpoint offsets,
    4 unorm8 for the colour, 1 for pickability; no type given where none is
    named), without transition and needing an update, and keeps every
    attribute the manager had under another name. *)
Theorem initializeState_registers_six_attributes (this : Layer.t) :
  let registered : list (string * (string * nat * option string)) :=
    [ ("instanceSourcePositions", ("getSourcePosition", 3, Some "float64"));
      ("instanceTargetPositions", ("getTargetPosition", 3, Some "float64"));
      ("instanceThickness", ("getThickness", 1, None));
      ("instanceEndpointOffsets", ("getEndpointOffsets", 2, None));
      ("instanceColors", ("getColor", 4, Some "unorm8"));
      ("instancePickable", ("getPickable", 1, None)) ] in
  ∃ after,
    initializeState this = (Normal tt, after) ∧
    Layer.props after = Layer.props this ∧
    Layer.state after = Layer.state this ∧
    Layer.context after = Layer.context this ∧
    match Layer.attributeManager this with
    | None => Layer.attributeManager after = None
    | Some am =>
        ∃ am',
          Layer.attributeManager after = Some am' ∧
          dom am' = dom am ∪ list_to_set (map fst registered) ∧
          (∀ name, name ∉ map fst registered → am' !! name = am !! name) ∧
          Forall (fun r =>
            am' !! r.1 =
              Some (AttributeManager.mkAttribute
                      (AttributeManager.mkSettings r.2.1.1 r.2.1.2 false r.2.2)
                      true true)) registered
    end.
Proof.
  cbn zeta. unfold initializeState, getAttributeManager. run_method.
  destruct (Layer.attributeManager this) as [am |] eqn:Ham.
  - eexists. split; [reflexivity |]. run_method.
    split; [reflexivity |]. split; [reflexivity |]. split; [reflexivity |].
    eexists. split; [reflexivity |].
    unfold AttributeManager.addInstanced. cbn [foldl fst snd map list_to_set].
    split; [| split].
    + rewrite !dom_insert_L. set_solver.
    + intros name Hname. cbn in Hname.
      rewrite !lookup_insert_ne; [reflexivity | ..];
        intros <-; apply Hname; set_solver.
    + repeat (apply Forall_cons; split;
        [ cbn [fst snd];
          rewrite ?lookup_insert_ne by discriminate; apply lookup_insert_eq | ]).
      apply Forall_nil_2.
  - eexists. split; [reflexivity |]. repeat split. exact Ham.
Qed.

(** * Further properties of the default accessors *)

Import Reading.

(** X11: what the default accessors do with a record that is not an object.
    The position and pickability accessors ignore the record and never
    throw; the colour and thickness accessors throw a TypeError on undefined
    and null, and on every other value that is not an object they return the
    default colour and undefined. *)
Theorem default_accessors_on_any_value
    (colorAsRgba : value → value) (d : value) (index : nat) :
  let defaults := defaultProps colorAsRgba in
  let getColor := PropType.value (DefaultProps.getColor defaults) in
  let getThickness := PropType.value (DefaultProps.getThickness defaults) in
  PropType.value (DefaultProps.getSourcePosition defaults) d
    = Normal (Arr [Num 0; Num 0]) ∧
  PropType.value (DefaultProps.getTargetPosition defaults) d
    = Normal (Arr [Num 0; Num 0]) ∧
  PropType.value (DefaultProps.getPickable defaults) d index = Normal (Num 1) ∧
  match d with
  | Undefined | Null =>
      (∃ msg, getColor d = Throw (TypeError msg)) ∧
      (∃ msg, getThickness d = Throw (TypeError msg))
  | Obj record =>
      (∃ color, getColor d = Normal color) ∧
      getThickness d = Normal (field record "count")
  | _ =>
      getColor d = Normal (rgba_value DEFAULT_COLOR) ∧
      getThickness d = Normal Undefined
  end.
Proof.
  cbn zeta. split; [reflexivity |]. split; [reflexivity |]. split; [reflexivity |].
  destruct d as [| | b | x | s | l | record].
  - split; eexists; reflexivity.
  - split; eexists; reflexivity.
  - split; reflexivity.
  - split; reflexivity.
  - split; reflexivity.
  - split; reflexivity.
  - split; [| reflexivity]. rewrite getColor_eq. eexists. reflexivity.
Qed.

(** X12: under the contract of colorAsRgba, whatever the default colour
    accessor returns is four RGBA bytes: never undefined, never a falsy
    value, for every record value it returns on. *)
Theorem default_colour_is_always_RGBA
    (colorAsRgba : value → value) (d color : value) :
  colorAsRgba_contract colorAsRgba →
  PropType.value (DefaultProps.getColor (defaultProps colorAsRgba)) d = Normal color →
  is_RGBA color ∧ truthy color = true.
Proof.
  intros Hcontract Hget.
  assert (Hcases : color = rgba_value DEFAULT_COLOR ∨
                   ∃ c, color = colorAsRgba c ∧ truthy (colorAsRgba c) = true).
  { destruct d as [| | b | x | s | l | record];
      try (cbn in Hget; discriminate Hget);
      try (cbn in Hget; injection Hget as <-; left; reflexivity).
    rewrite getColor_eq in Hget. injection Hget as <-.
    destruct (truthy (record_colour record)); cbn [andb]; [| left; reflexivity].
    destruct (truthy (colorAsRgba (record_colour record))) eqn:Hconv;
      [| left; reflexivity].
    right. eexists. split; [reflexivity | exact Hconv]. }
  destruct Hcases as [-> | (c & -> & Hconv)].
  - split; [apply DEFAULT_COLOR_is_RGBA | reflexivity].
  - split; [apply Hcontract, Hconv | exact Hconv].
Qed.

Lemma default_colour_is_always_RGBA_witness :
  is_RGBA (Arr [Num 0; Num 0; Num 0; Num 255]) ∧
  truthy (Arr [Num 0; Num 0; Num 0; Num 255]) = true.
Proof.
  apply (default_colour_is_always_RGBA Scenario.namedColor
           (Obj {[ "color" := Str "black" ]}) _ namedColor_contract).
  reflexivity.
Defined.

(** * Further properties of the tooltip *)

(** Reading a field of a nullish value throws. *)
Lemma get_nullish (v : value) (key : string) :
  nullish v = true → ∃ msg, get v key = Throw (TypeError msg).
Proof. destruct v; try discriminate; intros _; eexists; reflexivity. Qed.

(** What [getTooltipState] does with an info tagged "flow". *)
Lemma tooltip_flow_run (info : gmap string value) :
  info !! "type" = Some (Str "flow") →
  getTooltipState (Obj info) =
    (originId ← get (field info "origin") "id";
     destId ← get (field info "dest") "id";
     mret (Some {|
       position := {| left := field info "x"; top := field info "y" |};
       content :=
         Fragment
           [ Element "div" [Expr originId; Text " → "; Expr destId];
             Element "div" [Expr (field info "count")] ] |})).
Proof.
  intros Htype. unfold getTooltipState, field. cbn. rewrite Htype. cbn.
  destruct (get (default Undefined (info !! "origin")) "id"); [| reflexivity].
  cbn. destruct (get (default Undefined (info !! "dest")) "id"); reflexivity.
Qed.

(** What [getTooltipState] does with an info tagged "location". *)
Lemma tooltip_location_run (info : gmap string value) :
  info !! "type" = Some (Str "location") →
  getTooltipState (Obj info) =
    (incomingCount ← get (field info "totals") "incomingCount";
     outgoingCount ← get (field info "totals") "outgoingCount";
     internalCount ← get (field info "totals") "internalCount";
     mret (Some {|
       position := {| left := field info "x"; top := field info "y" |};
       content :=
         Fragment
           [ Element "div" [Expr (field info "name")];
             Element "div" [Text "Incoming trips: "; Expr incomingCount];
             Element "div" [Text "Outgoing trips: "; Expr outgoingCount];
             Element "div" [Text "Internal or round trips: "; Expr internalCount] ]
       |})).
Proof.
  intros Htype. unfold getTooltipState, field. cbn. rewrite Htype. cbn.
  destruct (default Undefined (info !! "totals")); reflexivity.
Qed.

(** X13: a picking info tagged "flow" without an origin or without a
    destination (missing, undefined or null), and one tagged "location"
    without totals, make [getTooltipState] throw a TypeError. *)
Theorem tooltip_throws_on_incomplete_info (info : gmap string value) :
  (info !! "type" = Some (Str "flow") ∧
   (nullish (field info "origin") = true ∨ nullish (field info "dest") = true)) ∨
  (info !! "type" = Some (Str "location") ∧ nullish (field info "totals") = true) →
  ∃ msg, getTooltipState (Obj info) = Throw (TypeError msg).
Proof.
  intros [[Htype Hmissing] | [Htype Hmissing]].
  - rewrite (tooltip_flow_run info Htype).
    destruct Hmissing as [Horigin | Hdest].
    + destruct (get_nullish _ "id" Horigin) as [msg ->]. eexists. reflexivity.
    + destruct (get_nullish _ "id" Hdest) as [msg ->].
      destruct (get (field info "origin") "id") as [v | [msg']];
        eexists; reflexivity.
  - rewrite (tooltip_location_run info Htype).
    destruct (get_nullish _ "incomingCount" Hmissing) as [msg ->].
    eexists. reflexivity.
Qed.

Lemma tooltip_throws_on_incomplete_info_witness :
  ∃ msg, getTooltipState (Obj Examples.brokenFlowInfo) = Throw (TypeError msg).
Proof.
  apply (tooltip_throws_on_incomplete_info Examples.brokenFlowInfo).
  left. split; [reflexivity |]. left. reflexivity.
Defined.

(** X14: only an object can give a tooltip or an exception: for undefined,
    null, a boolean, a number, a string and an array, [getTooltipState]
    returns normally and says no tooltip. *)
Theorem tooltip_none_for_non_objects (info : value) :
  match info with
  | Obj _ => True
  | _ => getTooltipState info = Normal None
  end.
Proof.
  destruct info as [| | b | x | s | l | o]; try reflexivity; try exact I.
  - destruct b; reflexivity.
  - unfold getTooltipState. destruct (truthy (Num x)); reflexivity.
  - unfold getTooltipState. destruct (truthy (Str s)); reflexivity.
Qed.

(** X15: [getTooltipState] never invents a tooltip: when it returns one for
    an info object, the object's type tag is "location" or "flow", and the
    tooltip sits at left = info.x, top = info.y. *)
Theorem tooltip_only_for_known_types
    (info : gmap string value) (tooltip : TooltipState) :
  getTooltipState (Obj info) = Normal (Some tooltip) →
  (info !! "type" = Some (Str "location") ∨ info !! "type" = Some (Str "flow")) ∧
  position tooltip = {| left := field info "x"; top := field info "y" |}.
Proof.
  intros Hget.
  destruct (info !! "type") as [type |] eqn:Htype;
    [| unfold getTooltipState in Hget; cbn in Hget; rewrite Htype in Hget;
       discriminate Hget].
  destruct type as [| | b | x | s | l | o];
    try (unfold getTooltipState in Hget; cbn in Hget; rewrite Htype in Hget;
         discriminate Hget).
  destruct (String.eqb_spec s "location") as [-> | Hlocation].
  - split; [left; reflexivity |].
    rewrite (tooltip_location_run info Htype) in Hget.
    destruct (get (field info "totals") "incomingCount"); [| discriminate Hget].
    cbn in Hget.
    destruct (get (field info "totals") "outgoingCount"); [| discriminate Hget].
    cbn in Hget.
    destruct (get (field info "totals") "internalCount"); [| discriminate Hget].
    cbn in Hget. injection Hget as <-. reflexivity.
  - destruct (String.eqb_spec s "flow") as [-> | Hflow].
    + split; [right; reflexivity |].
      rewrite (tooltip_flow_run info Htype) in Hget.
      destruct (get (field info "origin") "id"); [| discriminate Hget].
      cbn in Hget.
      destruct (get (field info "dest") "id"); [| discriminate Hget].
      cbn in Hget. injection Hget as <-. reflexivity.
    + exfalso. unfold getTooltipState in Hget. cbn in Hget. rewrite Htype in Hget.
      cbn in Hget. unfold PickingType.LOCATION, PickingType.FLOW in Hget.
      destruct (String.eqb_spec s "location"); [contradiction |].
      destruct (String.eqb_spec s "flow"); [contradiction |].
      discriminate Hget.
Qed.

Lemma tooltip_only_for_known_types_witness :
  ∃ tooltip,
    getTooltipState (Obj Scenario.flowInfo) = Normal (Some tooltip) ∧
    position tooltip = {| left := Num 3; top := Num 4 |}.
Proof.
  eexists. split; [reflexivity |].
  exact (proj2 (tooltip_only_for_known_types Scenario.flowInfo _ eq_refl)).
Defined.

(** * Properties of the example application's component *)

Import AppComponent.

(** One render with a view state: the tooltip elements are those of the
    tooltip cell. *)
Lemma App_tooltipElements
    (token : value) (config : gmap string value) (h : Hooks) :
  truthy (viewState h) = true →
  ∃ r,
    App token config h = Some r ∧
    tooltipElements r =
      match tooltip h with
      | Some t =>
          [ ({[ "left" := left (position t); "top" := top (position t) ]},
             [Content (content t)]) ]
      | None => []
      end ∧
    deckLayers r = layers config h ∧
    mapStyles r = [MAPBOX_STYLE_LIGHT].
Proof.
  intros Hview. unfold App. rewrite Hview. cbn [negb].
  eexists. split; [reflexivity |].
  destruct (truthy (option_of config "darkMode")), (tooltip h);
    cbn; rewrite ?app_nil_r; repeat split.
Qed.

(** X16: a hover over a flow puts its tooltip on the screen: the handler
    returns normally, keeps view state and data, and the next render has
    one tooltip element, at left = info.x, top = info.y, with the origin id,
    the destination id and the count. *)
Theorem hover_over_a_flow_shows_its_tooltip
    (token : value) (config : gmap string value) (h : Hooks)
    (info origin dest : gmap string value) :
  info !! "type" = Some (Str "flow") →
  info !! "origin" = Some (Obj origin) →
  info !! "dest" = Some (Obj dest) →
  truthy (viewState h) = true →
  ∃ h' r,
    onHoverHandler (Obj info) h = (Normal tt, h') ∧
    viewState h' = viewState h ∧ data h' = data h ∧
    App token config h' = Some r ∧
    tooltipElements r =
      [ ({[ "left" := field info "x"; "top" := field info "y" ]},
         [ Content (Fragment
             [ Element "div"
                 [Expr (field origin "id"); Text " → "; Expr (field dest "id")];
               Element "div" [Expr (field info "count")] ]) ]) ].
Proof.
  intros Htype Horigin Hdest Hview.
  set (shown := {|
    position := {| left := field info "x"; top := field info "y" |};
    content :=
      Fragment
        [ Element "div"
            [Expr (field origin "id"); Text " → "; Expr (field dest "id")];
          Element "div" [Expr (field info "count")] ] |}).
  assert (Hget : getTooltipState (Obj info) = Normal (Some shown)).
  { rewrite (tooltip_flow_run info Htype). unfold field.
    rewrite Horigin, Hdest. reflexivity. }
  unfold onHoverHandler. rewrite Hget.
  destruct (App_tooltipElements token config (setTooltip (Some shown) h) Hview)
    as (r & Hrender & Htips & _).
  exists (setTooltip (Some shown) h), r.
  split; [reflexivity |]. split; [reflexivity |]. split; [reflexivity |].
  split; [exact Hrender | exact Htips].
Qed.

Lemma hover_over_a_flow_shows_its_tooltip_witness :
  ∃ h' r,
    onHoverHandler (Obj Scenario.flowInfo) (mkHooks (Obj ∅) Undefined None)
      = (Normal tt, h') ∧
    App (Str "token") ∅ h' = Some r ∧
    tooltipElements r =
      [ ({[ "left" := Num 3; "top" := Num 4 ]},
         [ Content (Fragment
             [ Element "div" [Expr (Str "A"); Text " → "; Expr (Str "B")];
               Element "div" [Expr (Num 10)] ]) ]) ].
Proof.
  destruct (hover_over_a_flow_shows_its_tooltip (Str "token") ∅
              (mkHooks (Obj ∅) Undefined None) Scenario.flowInfo
              {[ "id" := Str "A" ]} {[ "id" := Str "B" ]}
              eq_refl eq_refl eq_refl eq_refl)
    as (h' & r & Hrun & _ & _ & Hrender & Htips).
  exists h', r. split; [exact Hrun |]. split; [exact Hrender | exact Htips].
Defined.

(** X17: a change of the view state takes the tooltip off the screen.  The
    handler stores the new view state, keeps the data and clears the
    tooltip, so the next render has no tooltip element (or nothing at all,
    when the new view state is falsy); called with undefined or null it
    throws and changes nothing. *)
Theorem view_change_hides_the_tooltip
    (token : value) (config : gmap string value) (arg : value) (h : Hooks) :
  match get arg "viewState" with
  | Throw e => handleViewStateChange arg h = (Throw e, h) ∧ nullish arg = true
  | Normal v =>
      ∃ h',
        handleViewStateChange arg h = (Normal tt, h') ∧
        viewState h' = v ∧ data h' = data h ∧ tooltip h' = None ∧
        match App token config h' with
        | Some r => tooltipElements r = [] ∧ truthy v = true
        | None => truthy v = false
        end
  end.
Proof.
  unfold handleViewStateChange.
  destruct (get arg "viewState") as [v | e] eqn:Hget.
  - eexists. split; [reflexivity |]. repeat split.
    destruct (truthy v) eqn:Hview.
    + destruct (App_tooltipElements token config
                  (setTooltip None (setViewState v h)) Hview)
        as (r & -> & Htips & _).
      split; [exact Htips | reflexivity].
    + unfold App. cbn [viewState setTooltip setViewState]. rewrite Hview.
      reflexivity.
  - split; [reflexivity |]. destruct arg; try discriminate Hget; reflexivity.
Qed.

(** X18: a hover whose picking info is broken does not disturb the screen:
    for a "flow" info without origin or destination and a "location" info
    without totals the handler throws before it sets anything, and the
    cells, the tooltip among them, are as they were. *)
Theorem failed_hover_keeps_the_tooltip (info : gmap string value) (h : Hooks) :
  (info !! "type" = Some (Str "flow") ∧
   (nullish (field info "origin") = true ∨ nullish (field info "dest") = true)) ∨
  (info !! "type" = Some (Str "location") ∧ nullish (field info "totals") = true) →
  ∃ msg, onHoverHandler (Obj info) h = (Throw (TypeError msg), h).
Proof.
  intros Hbroken. unfold onHoverHandler.
  assert (Hthrow : ∃ msg, getTooltipState (Obj info) = Throw (TypeError msg)).
  { destruct Hbroken as [[Htype Hmissing] | [Htype Hmissing]].
    - rewrite (tooltip_flow_run info Htype).
      destruct Hmissing as [Horigin | Hdest].
      + destruct (get_nullish _ "id" Horigin) as [msg ->]. eexists. reflexivity.
      + destruct (get_nullish _ "id" Hdest) as [msg ->].
        destruct (get (field info "origin") "id") as [v | [msg']];
          eexists; reflexivity.
    - rewrite (tooltip_location_run info Htype).
      destruct (get_nullish _ "incomingCount" Hmissing) as [msg ->].
      eexists. reflexivity. }
  destruct Hthrow as [msg ->]. exists msg. reflexivity.
Qed.

Lemma failed_hover_keeps_the_tooltip_witness :
  ∃ msg,
    onHoverHandler (Obj Examples.brokenFlowInfo) initialHooks
      = (Throw (TypeError msg), initialHooks).
Proof.
  apply (failed_hover_keeps_the_tooltip Examples.brokenFlowInfo initialHooks).
  left. split; [reflexivity |]. left. reflexivity.
Defined.

(** X19: a hover over nothing clears the tooltip: for undefined (empty
    space) and every other value that is not an object the handler returns
    normally with the tooltip cell empty and the other cells kept. *)
Theorem hover_over_nothing_clears_the_tooltip (info : value) (h : Hooks) :
  match info with
  | Obj _ => True
  | _ => onHoverHandler info h = (Normal tt, mkHooks (viewState h) (data h) None)
  end.
Proof.
  destruct info as [| | b | x | s | l | o]; try exact I; unfold onHoverHandler.
  - reflexivity.
  - reflexivity.
  - destruct b; reflexivity.
  - unfold getTooltipState. destruct (truthy (Num x)); reflexivity.
  - unfold getTooltipState. destruct (truthy (Str s)); reflexivity.
  - reflexivity.
Qed.

(** X20: what the effect does once fetchData has resolved.  With undefined
    or null it throws and sets nothing.  With an object it first stores the
    fetched locations and flows as the data; then, when
    getViewStateForLocations throws, the effect throws the same exception
    with the data stored and the view state as it was; and when it returns
    a view state, the effect returns normally, the stored view state is
    that one with the window's width and height put over its own, the next
    render is not null and hands DeckGL exactly one layer,
    "my-flowmap-layer", with the fetched data; the tooltip is as before. *)
Theorem fetched_data_shows_the_map
    (token : value)
    (getViewStateForLocations :
       value → (value → completion value) → value → value → completion value)
    (config : gmap string value)
    (fetched innerWidth innerHeight : value) (h : Hooks) :
  let effect := onFetched getViewStateForLocations fetched innerWidth innerHeight h in
  match fetched with
  | Undefined | Null => ∃ msg, effect = (Throw (TypeError msg), h)
  | Obj o =>
      let stored :=
        setData (Obj {[ "locations" := field o "locations";
                        "flows" := field o "flows" ]}) h in
      match getViewStateForLocations (field o "locations") centroid
              innerWidth innerHeight with
      | Throw e => effect = (Throw e, stored)
      | Normal computed =>
          ∃ h' r view layer,
            effect = (Normal tt, h') ∧
            tooltip h' = tooltip h ∧
            data h' = data stored ∧
            viewState h' = Obj view ∧
            view !! "width" = Some innerWidth ∧
            view !! "height" = Some innerHeight ∧
            (∀ key, key ≠ "width" → key ≠ "height" →
               view !! key = spread computed !! key) ∧
            App token config h' = Some r ∧
            deckLayers r = [layer] ∧
            FlowmapLayerProps.id layer = "my-flowmap-layer" ∧
            FlowmapLayerProps.data layer = data stored
      end
  | _ => True
  end.
Proof.
  cbn zeta. destruct fetched as [| | b | x | s | l | o]; try exact I.
  - eexists. reflexivity.
  - eexists. reflexivity.
  - unfold onFetched, field. cbn [get].
    destruct (getViewStateForLocations (default Undefined (o !! "locations"))
                centroid innerWidth innerHeight) as [computed | e];
      [| reflexivity].
    set (h' := setViewState _ (setData _ h)).
    destruct (App_tooltipElements token config h' eq_refl)
      as (r & Hrender & _ & Hlayers & _).
    exists h', r. eexists. eexists.
    split; [reflexivity |]. split; [reflexivity |]. split; [reflexivity |].
    split; [reflexivity |].
    split; [rewrite lookup_insert_ne by discriminate; apply lookup_insert_eq |].
    split; [apply lookup_insert_eq |].
    split; [intros key Hwidth Hheight;
            rewrite !lookup_insert_ne by congruence; reflexivity |].
    split; [exact Hrender |]. rewrite Hlayers.
    unfold layers, h'. cbn [data setViewState setData truthy].
    split; [reflexivity |]. split; reflexivity.
Qed.

